(** * generate_premium_dashboard_excel.py: shallow embedding and properties

    The script reads a JSON document from standard input, derives one row
    per proposal, sorts the rows by date and fills a workbook whose
    aggregates are spreadsheet formulas over the raw-data sheet.

    Conventions of the embedding:
    - Python text is a [string] of bytes (UTF-8); whitespace and digits
      are the ASCII ones.
    - A Python exception is the [Raise] outcome of the [result] monad;
      [try_except] is the [try: ... except Exception: ...] statement.
    - A Python [float] is the rational number it denotes ([Q]); binary
      rounding and the IEEE specials are not represented.
    - Library code whose text is not part of the script
      ([datetime.fromisoformat], [date.today], [repr], [json.loads]) is a
      field of the [runtime] record every function takes. *)

From Stdlib Require Import QArith Qround Sorted Permutation Ascii String.
From stdpp Require Import gmap strings list fin_maps sorting pretty.

Set Warnings "-register-all".
Open Scope Z_scope.

(** ** Exceptions *)

Inductive exn :=
| ValueError
| TypeError
| AttributeError
| IndexError
| JSONDecodeError.

Inductive result (A : Type) :=
| Ok (a : A)
| Raise (e : exn).
Arguments Ok {A} a.
Arguments Raise {A} e.

Definition bind {A B} (m : result A) (k : A -> result B) : result B :=
  match m with
  | Ok a => k a
  | Raise e => Raise e
  end.

Notation "'let!' x ':=' m 'in' k" := (bind m (fun x => k))
  (at level 10, x name, m at level 100, k at level 200).

(** [try: body  except Exception: handler] *)
Definition try_except {A} (body : result A) (handler : exn -> result A) : result A :=
  match body with
  | Ok a => Ok a
  | Raise e => handler e
  end.

Definition is_ok {A} (m : result A) : bool :=
  match m with Ok _ => true | Raise _ => false end.

(** [for x in xs: ys.append(f(x))], stopping at the first exception. *)
Fixpoint for_each {A B} (f : A -> result B) (xs : list A) : result (list B) :=
  match xs with
  | [] => Ok []
  | x :: xs' =>
      let! y := f x in
      let! ys := for_each f xs' in
      Ok (y :: ys)
  end.

(** ** Text builtins *)

Module Text.

(** [str.isspace] on the ASCII range. *)
Definition is_space (c : ascii) : bool :=
  let n := nat_of_ascii c in
  ((9 <=? n)%nat && (n <=? 13)%nat) || ((28 <=? n)%nat && (n <=? 32)%nat).

Definition is_digit (c : ascii) : bool :=
  let n := nat_of_ascii c in ((48 <=? n)%nat && (n <=? 57)%nat).

Definition digit_val (c : ascii) : Z := Z.of_nat (nat_of_ascii c) - 48.

Fixpoint lstrip (s : string) : string :=
  match s with
  | String c s' => if is_space c then lstrip s' else s
  | EmptyString => EmptyString
  end.

Fixpoint rstrip (s : string) : string :=
  match s with
  | String c s' =>
      match rstrip s' with
      | EmptyString => if is_space c then EmptyString else String c EmptyString
      | t => String c t
      end
  | EmptyString => EmptyString
  end.

(** [s.strip()] *)
Definition strip (s : string) : string := rstrip (lstrip s).

(** [s.replace(c, by)] for a one-character pattern [c]: every
    occurrence is replaced. *)
Fixpoint replace (c : ascii) (by_ : string) (s : string) : string :=
  match s with
  | String x s' =>
      if Ascii.eqb x c then by_ +:+ replace c by_ s' else String x (replace c by_ s')
  | EmptyString => EmptyString
  end.

(** Truth value of a string: non-empty. *)
Definition truthy (s : string) : bool :=
  match s with EmptyString => false | _ => true end.

Definition lower (c : ascii) : ascii :=
  let n := nat_of_ascii c in
  if ((65 <=? n)%nat && (n <=? 90)%nat) then ascii_of_nat (n + 32) else c.

Fixpoint lower_string (s : string) : string :=
  match s with
  | String c s' => String (lower c) (lower_string s')
  | EmptyString => EmptyString
  end.

(** ** Numeric literals

    [digitpart ::= digit (["_"] digit)*], read from the front of the
    text.  The result is the value, the number of digits and the rest. *)
Fixpoint digitpart_more (acc : Z) (n : nat) (s : string) : Z * nat * string :=
  match s with
  | String c s' =>
      if is_digit c then digitpart_more (10 * acc + digit_val c) (S n) s'
      else if Ascii.eqb c "_" then
        match s' with
        | String d s'' =>
            if is_digit d then digitpart_more (10 * acc + digit_val d) (S n) s''
            else (acc, n, s)
        | EmptyString => (acc, n, s)
        end
      else (acc, n, s)
  | EmptyString => (acc, n, s)
  end.

Definition digitpart (s : string) : option (Z * nat * string) :=
  match s with
  | String c s' =>
      if is_digit c then Some (digitpart_more (digit_val c) 1 s') else None
  | EmptyString => None
  end.

Definition sign (s : string) : bool * string :=
  match s with
  | String "+" s' => (false, s')
  | String "-" s' => (true, s')
  | _ => (false, s)
  end.

Definition apply_sign (neg : bool) (z : Z) : Z := if neg then - z else z.

(** [int(text)] in base 10. *)
Definition int_of_string (text : string) : result Z :=
  let (neg, s) := sign (strip text) in
  match digitpart s with
  | Some (v, _, EmptyString) => Ok (apply_sign neg v)
  | _ => Raise ValueError
  end.

(** [exponent ::= ("e" | "E") [sign] digitpart], or nothing. *)
Definition exponent (s : string) : option Z :=
  match s with
  | EmptyString => Some 0
  | String c s' =>
      if Ascii.eqb c "e" || Ascii.eqb c "E" then
        let (neg, s'') := sign s' in
        match digitpart s'' with
        | Some (v, _, EmptyString) => Some (apply_sign neg v)
        | _ => None
        end
      else None
  end.

(** [mantissa * 10 ^ e] *)
Definition scale10 (mantissa : Z) (e : Z) : Q :=
  if 0 <=? e then inject_Z (mantissa * 10 ^ e)
  else Qred (Qmake mantissa (Z.to_pos (10 ^ (- e)))).

(** [number ::= [digitpart] "." digitpart | digitpart ["."]] followed
    by the optional exponent. *)
Definition floatnumber (s : string) : option Q :=
  match digitpart s with
  | Some (ip, _, String "." rest) =>
      match digitpart rest with
      | Some (fp, k, rest') =>
          e ← exponent rest';
          Some (scale10 (ip * 10 ^ Z.of_nat k + fp) (e - Z.of_nat k))
      | None => e ← exponent rest; Some (scale10 ip e)
      end
  | Some (ip, _, rest) => e ← exponent rest; Some (scale10 ip e)
  | None =>
      match s with
      | String "." rest =>
          match digitpart rest with
          | Some (fp, k, rest') =>
              e ← exponent rest'; Some (scale10 fp (e - Z.of_nat k))
          | None => None
          end
      | _ => None
      end
  end.

(** [float(text)].  Decimal literals are read exactly; every other
    text raises [ValueError].  (The spellings [inf], [infinity] and
    [nan], which Python reads as IEEE specials, have no rational value
    and are outside the embedding.) *)
Definition float_of_string (text : string) : result Q :=
  let (neg, s) := sign (strip text) in
  match floatnumber s with
  | Some q => Ok (if neg then Qopp q else q)
  | None => Raise ValueError
  end.

(** [str(z)] for an integer. *)
Definition string_of_Z (z : Z) : string := pretty z.

End Text.

(** ** Values *)

(** [datetime.date] *)
Record date := Date { year : Z; month : Z; day : Z }.

(** [datetime.datetime]: a date, a time of day and an optional UTC
    offset in seconds. *)
Record datetime := DateTime {
  dt_date : date;
  dt_seconds : Q;
  dt_utcoffset : option Z
}.

(** [d1 <= d2] on dates compares (year, month, day). *)
Definition date_leb (d1 d2 : date) : bool :=
  if year d1 <? year d2 then true
  else if year d2 <? year d1 then false
  else if month d1 <? month d2 then true
  else if month d2 <? month d1 then false
  else day d1 <=? day d2.

(** The Python objects the script handles: what [json.loads] builds
    (None, bool, int, float, str, list, dict) and a native date. *)
Inductive pyval :=
| PNone
| PBool (b : bool)
| PInt (z : Z)
| PFloat (q : Q)
| PStr (s : string)
| PList (l : list pyval)
| PDict (d : gmap string pyval)
| PDate (d : date).

(** The library behind the script. *)
Record runtime := Runtime {
  (** [dt.date.today()] *)
  today : date;
  (** [dt.datetime.fromisoformat] *)
  fromisoformat : string -> result datetime;
  (** [repr] of floats, containers and dates, which [str] falls back to *)
  repr : pyval -> string;
  (** [json.loads] *)
  json_loads : string -> result pyval
}.

(** [bool(v)] *)
Definition truthy (v : pyval) : bool :=
  match v with
  | PNone => false
  | PBool b => b
  | PInt z => negb (z =? 0)
  | PFloat q => negb (Qeq_bool q 0)
  | PStr s => Text.truthy s
  | PList l => match l with [] => false | _ => true end
  | PDict d => negb (bool_decide (d = ∅))
  | PDate _ => true
  end.

(** [a or b] *)
Definition py_or (a b : pyval) : pyval := if truthy a then a else b.

(** [str(v)] *)
Definition py_str (rt : runtime) (v : pyval) : string :=
  match v with
  | PNone => "None"
  | PBool true => "True"
  | PBool false => "False"
  | PInt z => Text.string_of_Z z
  | PStr s => s
  | _ => repr rt v
  end.

(** [int(v)] *)
Definition py_int (v : pyval) : result Z :=
  match v with
  | PInt z => Ok z
  | PBool b => Ok (if b then 1 else 0)
  | PFloat q => Ok (Z.quot (Qnum q) (Zpos (Qden q)))
  | PStr s => Text.int_of_string s
  | _ => Raise TypeError
  end.

(** [d.get(key, default)] *)
Definition dict_get (d : gmap string pyval) (key : string) (dflt : pyval) : pyval :=
  default dflt (d !! key).

(** [v.get] exists on dicts only. *)
Definition as_dict (v : pyval) : result (gmap string pyval) :=
  match v with
  | PDict d => Ok d
  | _ => Raise AttributeError
  end.

(** [xs[i]] on a list. *)
Definition getitem {A} (xs : list A) (i : Z) : result A :=
  let j := if i <? 0 then i + Z.of_nat (length xs) else i in
  if j <? 0 then Raise IndexError
  else match xs !! Z.to_nat j with
       | Some x => Ok x
       | None => Raise IndexError
       end.

(** [round(q, 2)]: to the nearest multiple of 1/100, ties to even. *)
Definition round_half_even (q : Q) : Z :=
  let f := Qfloor q in
  match Qcompare (q - inject_Z f) (1 # 2) with
  | Lt => f
  | Gt => f + 1
  | Eq => if Z.even f then f else f + 1
  end.

Definition round2 (q : Q) : Q := Qred (Qmake (round_half_even (q * 100)) 100).

(** ** Sorting

    [list.sort] and [sorted] are stable.  For a total preorder on the
    keys a list has one stable sorted arrangement, which insertion from
    the right computes. *)
Section Sorting.
Context {A : Type} (le : A -> A -> bool).

Fixpoint insert_sorted (x : A) (l : list A) : list A :=
  match l with
  | [] => [x]
  | y :: l' => if le x y then x :: l else y :: insert_sorted x l'
  end.

Fixpoint stable_sort (l : list A) : list A :=
  match l with
  | [] => []
  | x :: l' => insert_sorted x (stable_sort l')
  end.

(** [reverse=True]: the list is reversed, sorted and reversed again,
    so equal keys keep their original order. *)
Definition stable_sort_reverse (l : list A) : list A :=
  reverse (stable_sort (reverse l)).

(** Two elements with the same key. *)
Definition same_key (a b : A) : bool := le a b && le b a.
End Sorting.

(** [sorted(xs, key=key)] for keys compared by [key_le]. *)
Definition sorted_by_key {A K} (key_le : K -> K -> bool) (key : A -> K)
    (xs : list A) : list A :=
  stable_sort (fun a b => key_le (key a) (key b)) xs.

(** [sorted(xs, key=key, reverse=True)] *)
Definition sorted_by_key_reverse {A K} (key_le : K -> K -> bool) (key : A -> K)
    (xs : list A) : list A :=
  stable_sort_reverse (fun a b => key_le (key a) (key b)) xs.

(** ** Value and date parsers *)

(** [parse_value(raw)] *)
Definition parse_value (rt : runtime) (raw : pyval) : result Q :=
  match raw with
  | PNone => Ok 0%Q
  | _ =>
      let text := Text.strip (py_str rt raw) in
      if negb (Text.truthy text) then Ok 0%Q
      else Text.float_of_string (Text.replace "," "." (Text.replace "." "" text))
  end.

(** [parse_date(raw)] *)
Definition parse_date (rt : runtime) (raw : pyval) : result date :=
  match raw with
  | PDate d => Ok d
  | _ =>
      let value := py_str rt raw in
      try_except
        (let! parsed := fromisoformat rt (Text.replace "Z" "+00:00" value) in
         Ok (dt_date parsed))
        (fun _ => Ok (today rt))
  end.

(** ** Row derivation *)

(** One appended row:
    [d, client, title, status, channel, val, paid, seller, category, uf]. *)
Record row := Row {
  r_date : date;
  r_client : string;
  r_title : string;
  r_status : string;
  r_channel : string;
  r_value : Q;
  r_paid : string;
  r_seller : string;
  r_category : string;
  r_region : string
}.

Definition channels : list string := ["Pix"; "Cartão"; "Boleto"].
Definition sellers : list string := ["Razi"; "Ana"; "João"; "Bea"].
Definition cats : list string := ["Serviço"; "Produto"; "Mensalidade"; "Setup"].
Definition ufs : list string := ["SP"; "RJ"; "MG"; "PR"].

(** The body of [for p in proposals]. *)
Definition derive_row (rt : runtime) (p : pyval) : result row :=
  let! d0 := as_dict p in
  let! pid := py_int (py_or (dict_get d0 "id" (PInt 0)) (PInt 0)) in
  let status := py_str rt (dict_get d0 "status" (PStr "pendente")) in
  let! d := parse_date rt (dict_get d0 "createdAt" PNone) in
  let! v := parse_value rt (dict_get d0 "value" PNone) in
  let val := round2 v in
  let client := py_str rt (dict_get d0 "clientName" (PStr "")) in
  let title :=
    py_str rt (dict_get d0 "title" (PStr ("Contrato #" +:+ Text.string_of_Z pid))) in
  let! channel := getitem channels (pid mod Z.of_nat (length channels)) in
  let paid := if String.eqb status "vendida" then "Sim" else "Não" in
  let! seller := getitem sellers ((pid + 1) mod Z.of_nat (length sellers)) in
  let! category := getitem cats ((pid + 2) mod Z.of_nat (length cats)) in
  let! uf := getitem ufs ((pid + 3) mod Z.of_nat (length ufs)) in
  Ok (Row d client title status channel val paid seller category uf).

(** The loop followed by [rows.sort(key=lambda x: x[0])]. *)
Definition derive_rows (rt : runtime) (proposals : list pyval) : result (list row) :=
  let! rows := for_each (derive_row rt) proposals in
  Ok (sorted_by_key date_leb r_date rows).

(** ** Workbook

    Only cell contents are kept; fonts, fills, borders, widths and charts
    do not influence any value. *)

(** A cell range [first..last] of one column, as the script spells it:
    with a sheet prefix and absolute markers ([Dados!$A$2:$A$7]) or
    without ([B5:B9]). *)
Record range := Range {
  rg_sheet : option string;
  rg_col : string;
  rg_first : Z;
  rg_last : Z
}.

Definition render_range (r : range) : string :=
  match rg_sheet r with
  | Some sh =>
      sh +:+ "!$" +:+ rg_col r +:+ "$" +:+ Text.string_of_Z (rg_first r)
         +:+ ":$" +:+ rg_col r +:+ "$" +:+ Text.string_of_Z (rg_last r)
  | None =>
      rg_col r +:+ Text.string_of_Z (rg_first r)
         +:+ ":" +:+ rg_col r +:+ Text.string_of_Z (rg_last r)
  end.

(** A range is well formed when it holds at least one cell and its
    corners are in order. *)
Definition range_valid (r : range) : bool := rg_first r <=? rg_last r.

(** A criterion of SUMIFS/COUNTIFS/MAXIFS: a text constant or the
    content of a cell of the same sheet ([$A7]). *)
Inductive criterion :=
| CritText (s : string)
| CritCell (col : string) (r : Z).

(** One factor of a SUMPRODUCT over row ranges of the data sheet. *)
Inductive factor :=
| MonthIs (rg : range) (col : string) (r : Z)   (* (TEXT(rg,"yyyy-mm")=B24) *)
| TextIs (rg : range) (s : string)              (* (rg="vendida") *)
| Values (rg : range).                          (* (rg) *)

(** The formulas the script writes.  Whole-column arguments
    ([Dados!$F:$F]) are given by their column letter. *)
Inductive formula :=
| FNum (q : Q)
| FText (s : string)
| FCell (sheet : option string) (col : string) (r : Z)
| FAdd (a b : formula)
| FDiv (a b : formula)
| FIfError (a b : formula)
| FSum (rg : range)
| FCountIf (col : string) (crit : string)
| FSumIfs (sum_col : string) (conds : list (string * criterion))
| FCountIfs (conds : list (string * criterion))
| FMaxIfs (max_col : string) (conds : list (string * criterion))
| FMonthLabel (months_back : Z)
| FSumProduct (factors : list factor).

Inductive cell :=
| CNum (q : Q)
| CText (s : string)
| CDate (d : date)
| CFormula (f : formula).

(** A sheet filled cell by cell, keyed by (row, column). *)
Abbreviation sheet := (gmap (Z * Z) cell).

(** Column letters to column numbers ([A] is 1). *)
Fixpoint column_index_go (acc : Z) (s : string) : Z :=
  match s with
  | String c s' => column_index_go (26 * acc + (Z.of_nat (nat_of_ascii c) - 64)) s'
  | EmptyString => acc
  end.
Definition column_index (col : string) : Z := column_index_go 0 col.

(** [ws.cell(r, c, v)] *)
Definition set_cell (r c : Z) (v : cell) (ws : sheet) : sheet := <[(r, c) := v]> ws.

(** [ws["S6"] = v] *)
Definition set_at (col : string) (r : Z) (v : cell) (ws : sheet) : sheet :=
  set_cell r (column_index col) v ws.

Record workbook := Workbook {
  (** sheet "Dados": the appended rows, header first *)
  ws_data : list (list cell);
  (** ranges given to [conditional_formatting.add] on "Dados" *)
  cond_formats : list (range * string);
  ws_clients : sheet;
  ws_dash : sheet
}.

Definition headers : list string :=
  ["Data"; "Cliente"; "Proposta"; "Status"; "Canal"; "Valor (R$)"; "Pago?";
   "Vendedor"; "Categoria"; "UF"].

Definition row_cells (r : row) : list cell :=
  [CDate (r_date r); CText (r_client r); CText (r_title r); CText (r_status r);
   CText (r_channel r); CNum (r_value r); CText (r_paid r); CText (r_seller r);
   CText (r_category r); CText (r_region r)].

(** [ws_data.append(headers)] then [ws_data.append(r)] for each row. *)
Definition data_sheet (rows : list row) : list (list cell) :=
  map CText headers :: map row_cells rows.

(** [ws_data.max_row] *)
Definition max_row (data : list (list cell)) : Z := Z.of_nat (length data).

(** The three rules added under [if max_row >= 2]. *)
Definition conditional_formats (mr : Z) : list (range * string) :=
  if 2 <=? mr then
    [(Range None "D" 2 mr, "vendida"); (Range None "D" 2 mr, "pendente");
     (Range None "D" 2 mr, "cancelada")]
  else [].

(** [names = sorted({r[1] for r in rows})] *)
Definition client_set (rows : list row) : gset string :=
  list_to_set (map r_client rows).
Definition client_names (rows : list row) : list string :=
  stable_sort String.leb (elements (client_set rows)).

(** *** Sheet "Clientes" *)

Definition client_headers : list string :=
  ["Cliente"; "Receita (R$)"; "Vendas"; "Pendentes"; "Canceladas";
   "Ticket Médio (R$)"; "Última Venda"].

Definition by_client (r : Z) (status : string) : list (string * criterion) :=
  [("B", CritCell "A" r); ("D", CritText status)].

(** The seven cells of the row of one client. *)
Definition client_row (r : Z) (name : string) (ws : sheet) : sheet :=
  set_cell r 7 (CFormula (FIfError (FMaxIfs "A" (by_client r "vendida")) (FText "")))
  (set_cell r 6 (CFormula (FIfError (FDiv (FCell None "B" r) (FCell None "C" r)) (FNum 0)))
  (set_cell r 5 (CFormula (FCountIfs (by_client r "cancelada")))
  (set_cell r 4 (CFormula (FCountIfs (by_client r "pendente")))
  (set_cell r 3 (CFormula (FCountIfs (by_client r "vendida")))
  (set_cell r 2 (CFormula (FSumIfs "F" (by_client r "vendida")))
  (set_cell r 1 (CText name) ws)))))).

(** [for idx, name in enumerate(names): r = start + idx; ...] *)
Fixpoint client_rows (r : Z) (names : list string) (ws : sheet) : sheet :=
  match names with
  | [] => ws
  | name :: rest => client_rows (r + 1) rest (client_row r name ws)
  end.

Definition clients_start : Z := 5.

Definition total_row (total_r : Z) (ws : sheet) : sheet :=
  let col_sum c := CFormula (FSum (Range None c clients_start (total_r - 1))) in
  set_cell total_r 6
    (CFormula (FIfError (FDiv (FCell None "B" total_r) (FCell None "C" total_r)) (FNum 0)))
  (set_cell total_r 5 (col_sum "E")
  (set_cell total_r 4 (col_sum "D")
  (set_cell total_r 3 (col_sum "C")
  (set_cell total_r 2 (col_sum "B")
  (set_cell total_r 1 (CText "TOTAL") ws))))).

(** [ws.append(xs)] on the row [r]. *)
Fixpoint write_row (r c : Z) (xs : list cell) (ws : sheet) : sheet :=
  match xs with
  | [] => ws
  | x :: xs' => write_row r (c + 1) xs' (set_cell r c x ws)
  end.

Definition clients_sheet (names : list string) : sheet :=
  let ws := set_cell 1 1 (CText "Clientes — Ranking e Métricas") ∅ in
  let ws :=
    set_cell 2 1
      (CText "Baseado na aba Dados. Ideal para priorizar follow-up e ver receita por cliente.")
      ws in
  let ws := write_row 4 1 (map CText client_headers) ws in
  let ws := client_rows clients_start names ws in
  total_row (clients_start + Z.of_nat (length names)) ws.

(** *** Sheet "Dashboard" *)

(** [kpi_card(ws, top, left, title, formula_cell, icon)]: the three
    merged areas and the values of their first cells. *)
Definition kpi_card (top left : Z) (title : string) (target : formula)
    (icon : string) (ws : sheet) : sheet :=
  set_cell (top + 4) left (CText "Auto (aba Dados).")
  (set_cell (top + 1) left (CFormula target)
  (set_cell top left (CText (icon +:+ "  " +:+ title)) ws)).

Definition kpi_ref (r : Z) : formula := FCell (Some "Dashboard") "S" r.

(** The hidden KPI cells S6..S11. *)
Definition kpi_cells (ws : sheet) : sheet :=
  set_at "S" 11
    (CFormula (FIfError
       (FDiv (FCell None "S" 7)
             (FAdd (FAdd (FCell None "S" 7) (FCell None "S" 8)) (FCell None "S" 9)))
       (FNum 0)))
  (set_at "S" 10
    (CFormula (FIfError (FDiv (FCell None "S" 6) (FCell None "S" 7)) (FNum 0)))
  (set_at "S" 9 (CFormula (FCountIf "D" "cancelada"))
  (set_at "S" 8 (CFormula (FCountIf "D" "pendente"))
  (set_at "S" 7 (CFormula (FCountIf "D" "vendida"))
  (set_at "S" 6 (CFormula (FSumIfs "F" [("D", CritText "vendida")])) ws))))).

Definition kpi_cards (ws : sheet) : sheet :=
  kpi_card 14 12 "Canceladas (qtd)" (kpi_ref 9) "🧯"
  (kpi_card 14 7 "Conversão" (kpi_ref 11) "🎯"
  (kpi_card 14 2 "Ticket médio" (kpi_ref 10) "📈"
  (kpi_card 6 12 "Pendentes (qtd)" (kpi_ref 8) "⏳"
  (kpi_card 6 7 "Vendas (qtd)" (kpi_ref 7) "✅"
  (kpi_card 6 2 "Receita total" (kpi_ref 6) "💰" ws))))).

Definition series_headers : list string :=
  ["Mês"; "Receita (R$)"; "Vendidas"; "Pendentes"; "Canceladas"; "Pix (R$)"].

(** The four row ranges of the data sheet, rows 2 to [max_row]. *)
Definition a_rng (mr : Z) : range := Range (Some "Dados") "A" 2 mr.
Definition d_rng (mr : Z) : range := Range (Some "Dados") "D" 2 mr.
Definition f_rng (mr : Z) : range := Range (Some "Dados") "F" 2 mr.
Definition canal_rng (mr : Z) : range := Range (Some "Dados") "E" 2 mr.

(** One row of the twelve-month table, [r = base_row + i]. *)
Definition trend_row (mr : Z) (i : Z) (ws : sheet) : sheet :=
  let r := 24 + i in
  let in_month := MonthIs (a_rng mr) "B" r in
  set_cell r 7
    (CFormula (FSumProduct
       [in_month; TextIs (d_rng mr) "vendida"; TextIs (canal_rng mr) "Pix";
        Values (f_rng mr)]))
  (set_cell r 6 (CFormula (FSumProduct [in_month; TextIs (d_rng mr) "cancelada"]))
  (set_cell r 5 (CFormula (FSumProduct [in_month; TextIs (d_rng mr) "pendente"]))
  (set_cell r 4 (CFormula (FSumProduct [in_month; TextIs (d_rng mr) "vendida"]))
  (set_cell r 3
    (CFormula (FSumProduct [in_month; TextIs (d_rng mr) "vendida"; Values (f_rng mr)]))
  (set_cell r 2 (CFormula (FMonthLabel (11 - i))) ws))))).

(** [for i in range(12)] *)
Definition trend_table (mr : Z) (ws : sheet) : sheet :=
  foldl (fun ws i => trend_row mr i ws) ws (seqZ 0 12).

Definition status_table (ws : sheet) : sheet :=
  set_at "C" 40 (CFormula (kpi_ref 9)) (set_at "B" 40 (CText "Cancelada")
  (set_at "C" 39 (CFormula (kpi_ref 8)) (set_at "B" 39 (CText "Pendente")
  (set_at "C" 38 (CFormula (kpi_ref 7)) (set_at "B" 38 (CText "Vendida")
  (set_at "C" 37 (CText "Qtd") (set_at "B" 37 (CText "Status") ws))))))).

(** [sum(r[5] for r in rows if r[1] == n and r[3] == "vendida")] *)
Definition sold_by (n : string) (r : row) : bool :=
  String.eqb (r_client r) n && String.eqb (r_status r) "vendida".
Definition sold_revenue (rows : list row) (n : string) : Q :=
  foldl Qplus 0%Q (map r_value (filter (fun r => sold_by n r = true) rows)).

(** [sorted(names, key=..., reverse=True)] *)
Definition sorted_clients (rows : list row) (names : list string) : list string :=
  sorted_by_key_reverse Qle_bool (sold_revenue rows) names.

(** One slot of the ranking, [rr = 44 + i]; it is filled only under
    [if i < len(sorted_clients)]. *)
Definition top10_slot (ranking : list string) (i : Z) (ws : sheet) : sheet :=
  let rr := 44 + i in
  if i <? Z.of_nat (length ranking) then
    match ranking !! Z.to_nat i with
    | Some name =>
        set_at "K" rr (CFormula (FCountIfs [("B", CritCell "I" rr); ("D", CritText "vendida")]))
        (set_at "J" rr
           (CFormula (FSumIfs "F" [("B", CritCell "I" rr); ("D", CritText "vendida")]))
        (set_at "I" rr (CText name) ws))
    | None => ws
    end
  else ws.

(** [for i in range(10)] *)
Definition top10_table (ranking : list string) (ws : sheet) : sheet :=
  foldl (fun ws i => top10_slot ranking i ws) ws (seqZ 0 10).

(** The dashboard up to the ranking table: titles, KPI cells and
    cards, the twelve-month table and the status table. *)
Definition dashboard_base (mr : Z) : sheet :=
  let ws := set_cell 2 2 (CText "F!") ∅ in
  let ws := set_cell 2 4 (CText "Relatório Executivo — Fechou!") ws in
  let ws :=
    set_cell 3 4 (CText "KPIs • gráficos • ranking de clientes (modelo premium)") ws in
  let ws := kpi_cells ws in
  let ws := kpi_cards ws in
  let ws := set_cell 22 2 (CText "Tendência — últimos 12 meses") ws in
  let ws := write_row 23 2 (map CText series_headers) ws in
  let ws := trend_table mr ws in
  let ws := set_cell 36 2 (CText "Distribuição geral") ws in
  let ws := status_table ws in
  let ws := set_cell 42 9 (CText "Top 10 clientes por receita") ws in
  write_row 43 9 (map CText ["Cliente"; "Receita (R$)"; "Vendas"]) ws.

Definition dashboard (rows : list row) (names : list string) (mr : Z) : sheet :=
  top10_table (sorted_clients rows names) (dashboard_base mr).

(** Everything [main] puts into the workbook once the rows are known. *)
Definition build_workbook (rows : list row) : workbook :=
  let data := data_sheet rows in
  let mr := max_row data in
  let names := client_names rows in
  Workbook data (conditional_formats mr) (clients_sheet names) (dashboard rows names mr).

(** ** The program *)

(** [for p in v]: the items a loop over [v] visits. *)
Definition iterate (v : pyval) : result (list pyval) :=
  match v with
  | PList l => Ok l
  | PDict d => Ok (map (fun kv => PStr (fst kv)) (map_to_list d))
  | PStr s => Ok (map (fun c => PStr (String c EmptyString)) (list_ascii_of_string s))
  | _ => Raise TypeError
  end.

Inductive outcome :=
| Exited (code : Z)
| Saved (out_path : string) (wb : workbook).

(** [main()] with [sys.argv] and the whole of standard input. *)
Definition main (rt : runtime) (argv : list string) (stdin : string) : result outcome :=
  match argv with
  | _ :: out_path :: _ =>
      let! payload := json_loads rt (if Text.truthy stdin then stdin else "{}") in
      let! doc := as_dict payload in
      let! proposals := iterate (dict_get doc "proposals" (PList [])) in
      let! rows := derive_rows rt proposals in
      Ok (Saved out_path (build_workbook rows))
  | _ => Ok (Exited 2)
  end.

(** The [__main__] block: any exception ends the run with status 1. *)
Definition script (rt : runtime) (argv : list string) (stdin : string) : outcome :=
  match main rt argv stdin with
  | Ok o => o
  | Raise _ => Exited 1
  end.

(** ** Reading the KPI cells

    The aggregates are computed by the spreadsheet application when the
    file is opened.  [eval] gives the meaning of the functions the KPI
    cells S6..S11 use: SUMIFS and COUNTIF over whole columns of the data
    sheet with text criteria, [+], [/], IFERROR and references to cells
    of the dashboard.  [None] means the formula lies outside this
    fragment (or the reference chain is longer than [fuel]). *)

(** How the application compares the text of a cell with a text
    criterion. *)
Record engine := Engine {
  text_matches : string -> string -> bool   (* criterion, cell text *)
}.

Inductive value :=
| VNum (q : Q)
| VText (s : string)
| VBlank
| VError.

Definition cell_matches (e : engine) (crit : string) (c : option cell) : bool :=
  match c with
  | Some (CText s) => text_matches e crit s
  | _ => false
  end.

Definition cell_number (c : option cell) : Q :=
  match c with
  | Some (CNum q) => q
  | _ => 0%Q
  end.

(** The cell of column [col] in one appended row. *)
Definition in_column (col : string) (r : list cell) : option cell :=
  r !! Z.to_nat (column_index col - 1).

Definition text_criteria (conds : list (string * criterion)) : option (list (string * string)) :=
  mapM (fun c => match snd c with
                 | CritText s => Some (fst c, s)
                 | CritCell _ _ => None
                 end) conds.

Definition row_matches (e : engine) (conds : list (string * string)) (r : list cell) : bool :=
  forallb (fun c => cell_matches e (snd c) (in_column (fst c) r)) conds.

Definition Qsum (qs : list Q) : Q := foldr Qplus 0%Q qs.

(** SUMIFS(Dados!sum_col, Dados!c1, k1, ...) *)
Definition sumifs (e : engine) (data : list (list cell)) (sum_col : string)
    (conds : list (string * string)) : Q :=
  Qsum (map (fun r => cell_number (in_column sum_col r))
            (filter (fun r => row_matches e conds r = true) data)).

(** COUNTIF(Dados!col, crit) *)
Definition countif (e : engine) (data : list (list cell)) (col crit : string) : Z :=
  Z.of_nat (length (filter (fun r => cell_matches e crit (in_column col r) = true) data)).

(** Operands of [+] and [/]: a blank counts as zero, text and errors
    give an error. *)
Definition operand (v : value) : option Q :=
  match v with
  | VNum q => Some q
  | VBlank => Some 0%Q
  | _ => None
  end.

Definition add_values (a b : value) : value :=
  match operand a, operand b with
  | Some x, Some y => VNum (x + y)
  | _, _ => VError
  end.

Definition div_values (a b : value) : value :=
  match operand a, operand b with
  | Some x, Some y => if Qeq_bool y 0 then VError else VNum (x / y)
  | _, _ => VError
  end.

Fixpoint eval (fuel : nat) (e : engine) (wb : workbook) (f : formula) : option value :=
  match fuel with
  | O => None
  | S n =>
      match f with
      | FNum q => Some (VNum q)
      | FText s => Some (VText s)
      | FCell sh col r =>
          if bool_decide (sh = None ∨ sh = Some "Dashboard") then
            match ws_dash wb !! (r, column_index col) with
            | None => Some VBlank
            | Some (CNum q) => Some (VNum q)
            | Some (CText s) => Some (VText s)
            | Some (CFormula g) => eval n e wb g
            | Some (CDate _) => None
            end
          else None
      | FAdd a b =>
          va ← eval n e wb a; vb ← eval n e wb b; Some (add_values va vb)
      | FDiv a b =>
          va ← eval n e wb a; vb ← eval n e wb b; Some (div_values va vb)
      | FIfError a b =>
          va ← eval n e wb a;
          match va with
          | VError => eval n e wb b
          | _ => Some va
          end
      | FCountIf col crit => Some (VNum (inject_Z (countif e (ws_data wb) col crit)))
      | FSumIfs sum_col conds =>
          cs ← text_criteria conds; Some (VNum (sumifs e (ws_data wb) sum_col cs))
      | _ => None
      end
  end.

(** The value shown by the dashboard cell [col][r]. *)
Definition dash_value (fuel : nat) (e : engine) (wb : workbook) (col : string) (r : Z)
    : option value :=
  eval fuel e wb (FCell None col r).

(** ** All ranges a workbook refers to *)

Definition factor_range (x : factor) : range :=
  match x with
  | MonthIs rg _ _ => rg
  | TextIs rg _ => rg
  | Values rg => rg
  end.

Definition formula_ranges (f : formula) : list range :=
  match f with
  | FSum rg => [rg]
  | FSumProduct xs => map factor_range xs
  | _ => []
  end.

Definition cell_ranges (c : cell) : list range :=
  match c with
  | CFormula f => formula_ranges f
  | _ => []
  end.

Definition sheet_ranges (ws : sheet) : list range :=
  flat_map (fun kv => cell_ranges (snd kv)) (map_to_list ws).

Definition workbook_ranges (wb : workbook) : list range :=
  map fst (cond_formats wb) ++ sheet_ranges (ws_clients wb)
    ++ sheet_ranges (ws_dash wb).

(** ** A concrete runtime

    Used to run the definitions on examples: the clock reads 2024-03-01,
    [fromisoformat] reads the calendar form YYYY-MM-DD only, [repr] prints
    a placeholder, and [json.loads] decodes three one-token documents. *)

Definition is_leap (y : Z) : bool :=
  ((y mod 4 =? 0) && negb (y mod 100 =? 0)) || (y mod 400 =? 0).

Definition days_in_month (y m : Z) : Z :=
  if m =? 2 then (if is_leap y then 29 else 28)
  else if (m =? 4) || (m =? 6) || (m =? 9) || (m =? 11) then 30
  else 31.

Definition calendar_date (s : string) : result datetime :=
  match list_ascii_of_string s with
  | [y1; y2; y3; y4; "-"; m1; m2; "-"; d1; d2]%char =>
      if forallb Text.is_digit [y1; y2; y3; y4; m1; m2; d1; d2] then
        let y := 1000 * Text.digit_val y1 + 100 * Text.digit_val y2
                 + 10 * Text.digit_val y3 + Text.digit_val y4 in
        let m := 10 * Text.digit_val m1 + Text.digit_val m2 in
        let d := 10 * Text.digit_val d1 + Text.digit_val d2 in
        if (1 <=? y) && (1 <=? m) && (m <=? 12) && (1 <=? d) && (d <=? days_in_month y m)
        then Ok (DateTime (Date y m d) 0 None)
        else Raise ValueError
      else Raise ValueError
  | _ => Raise ValueError
  end.

Definition small_documents (s : string) : result pyval :=
  if String.eqb s "{}" then Ok (PDict ∅)
  else if String.eqb s "[]" then Ok (PList [])
  else if String.eqb s "null" then Ok PNone
  else Raise JSONDecodeError.

Definition demo_runtime : runtime :=
  Runtime (Date 2024 3 1) calendar_date (fun _ => "<object>") small_documents.

(** ** The aggregates in the words of the specification *)

(** Sum of [value] over the rows with status "vendida". *)
Definition total_revenue (rows : list row) : Q :=
  Qsum (map r_value (filter (fun r => r_status r = "vendida") rows)).

(** Number of rows with a given status. *)
Definition count_status (rows : list row) (status : string) : Z :=
  Z.of_nat (length (filter (fun r => r_status r = status) rows)).


Global Instance date_eq_dec : EqDecision date.
Proof. solve_decision. Defined.

(** The id a record is derived with: [int(p.get("id", 0) or 0)]. *)
Definition record_id (d : gmap string pyval) : result Z :=
  py_int (py_or (dict_get d "id" (PInt 0)) (PInt 0)).

(** The four synthetic fields of [r] are the table entries at the
    positions given by [pid]. *)
Definition synthetic_fields (pid : Z) (r : row) : Prop :=
  channels !! Z.to_nat (pid mod 3) = Some (r_channel r)
  /\ sellers !! Z.to_nat ((pid + 1) mod 4) = Some (r_seller r)
  /\ cats !! Z.to_nat ((pid + 2) mod 4) = Some (r_category r)
  /\ ufs !! Z.to_nat ((pid + 3) mod 4) = Some (r_region r).

(** Three proposals, two of them on the same day. *)
Definition sample_proposals : list pyval :=
  [PDict {[ "id" := PInt 0; "status" := PStr "vendida"; "createdAt" := PStr "2024-03-02";
            "value" := PStr "100,00"; "clientName" := PStr "Bruno" ]};
   PDict {[ "id" := PInt 1; "status" := PStr "pendente"; "createdAt" := PStr "2024-03-01";
            "value" := PStr "50,00"; "clientName" := PStr "Ana" ]};
   PDict {[ "id" := PInt 2; "status" := PStr "cancelada"; "createdAt" := PStr "2024-03-02";
            "value" := PStr "25,00"; "clientName" := PStr "Ana" ]}].

Definition sample_rows : list row :=
  match derive_rows demo_runtime sample_proposals with
  | Ok rows => rows
  | Raise _ => []
  end.

(** A row that carries nothing but a date. *)
Definition dated (day : date) : row :=
  Row day "" "" "" "" 0 "" "" "" "".


(** What a filled ranking slot holds in column [c] of row [rr]. *)
Definition slot_cell (c rr : Z) (name : string) : option cell :=
  if c =? 9 then Some (CText name)
  else if c =? 10 then
    Some (CFormula (FSumIfs "F" [("B", CritCell "I" rr); ("D", CritText "vendida")]))
  else if c =? 11 then
    Some (CFormula (FCountIfs [("B", CritCell "I" rr); ("D", CritText "vendida")]))
  else None.

(** Average ticket and conversion rate in the words of the
    specification. *)
Definition average_ticket (rows : list row) : Q :=
  if count_status rows "vendida" =? 0 then 0%Q
  else (total_revenue rows / inject_Z (count_status rows "vendida"))%Q.

Definition conversion_rate (rows : list row) : Q :=
  let considered :=
    count_status rows "vendida" + count_status rows "pendente"
    + count_status rows "cancelada" in
  if considered =? 0 then 0%Q
  else (inject_Z (count_status rows "vendida") / inject_Z considered)%Q.


(** An application that compares text exactly, and one that ignores the
    case of ASCII letters. *)
Definition exact_engine : engine := Engine String.eqb.
Definition folding_engine : engine :=
  Engine (fun crit s => String.eqb (Text.lower_string crit) (Text.lower_string s)).

(** On the status column of the data sheet, header included, the
    application's comparison with the three status criteria agrees with
    equality of text. *)
Definition engine_exact_on (e : engine) (rows : list row) : Prop :=
  forall crit s,
    crit ∈ ["vendida"; "pendente"; "cancelada"] ->
    s ∈ "Status" :: map r_status rows ->
    text_matches e crit s = String.eqb crit s.

(** The ranges of a workbook that are empty or inverted, as written. *)
Definition invalid_ranges (wb : workbook) : list string :=
  remove_dups (map render_range
                 (filter (fun rg => range_valid rg = false) (workbook_ranges wb))).

(** Twelve sold rows, one per client, client [c1NN] with revenue [NN];
    and three sold rows of equal value. *)
Definition sold_row (client : string) (v : Z) : row :=
  Row (Date 2024 1 1) client "Contrato" "vendida" "Pix" (inject_Z v) "Sim" "Ana"
      "Setup" "SP".
Definition twelve_clients : list row :=
  map (fun k => sold_row ("c" +:+ Text.string_of_Z (100 + k)) k) (seqZ 1 12).
Definition tied_clients : list row :=
  [sold_row "Bia" 10; sold_row "Caio" 10; sold_row "Ana" 10; sold_row "Davi" 30].

(** Column I of the ranking table, rows 44 to 53. *)
Definition ranking_column (wb : workbook) : list (option cell) :=
  map (fun i => ws_dash wb !! (44 + i, 9)) (seqZ 0 10).

(** ** Further notions used by the properties of the program *)

(** What the run does when the "proposals" entry is not a list: an
    empty text or an empty object has no items to visit. *)
Definition has_no_items (v : pyval) : bool :=
  match v with
  | PStr s => negb (Text.truthy s)
  | PDict d => bool_decide (d = ∅)
  | _ => false
  end.

(** The rows of the same sheet a formula points at through its cell
    references and criterion cells. *)
Definition criterion_rows (c : string * criterion) : list Z :=
  match snd c with
  | CritCell _ r => [r]
  | CritText _ => []
  end.

Definition factor_rows (x : factor) : list Z :=
  match x with
  | MonthIs _ _ r => [r]
  | _ => []
  end.

Fixpoint formula_rows (f : formula) : list Z :=
  match f with
  | FCell _ _ r => [r]
  | FAdd a b | FDiv a b | FIfError a b => formula_rows a ++ formula_rows b
  | FSumIfs _ conds | FCountIfs conds | FMaxIfs _ conds => flat_map criterion_rows conds
  | FSumProduct xs => flat_map factor_rows xs
  | _ => []
  end.

(** A property of every cell of a sheet, given its row and column. *)
Definition sheet_inv (P : Z -> Z -> cell -> Prop) (ws : sheet) : Prop :=
  forall r c v, ws !! (r, c) = Some v -> P r c v.

(** Every formula of the cell points into the cell's own row. *)
Definition own_row (r c : Z) (v : cell) : Prop :=
  forall f, v = CFormula f -> Forall (fun r' => r' = r) (formula_rows f).

(** The same for the cells of the trend table (rows 24 to 35) and of
    the ranking table (row 44 onward) of the dashboard. *)
Definition table_own_row (r c : Z) (v : cell) : Prop :=
  24 <= r <= 35 \/ 44 <= r -> own_row r c v.

(** The formula of the trend table in column [c] of row [r]. *)
Definition trend_formula (mr r c : Z) : option formula :=
  let in_month := MonthIs (a_rng mr) "B" r in
  if c =? 2 then Some (FMonthLabel (35 - r))
  else if c =? 3 then
    Some (FSumProduct [in_month; TextIs (d_rng mr) "vendida"; Values (f_rng mr)])
  else if c =? 4 then Some (FSumProduct [in_month; TextIs (d_rng mr) "vendida"])
  else if c =? 5 then Some (FSumProduct [in_month; TextIs (d_rng mr) "pendente"])
  else if c =? 6 then Some (FSumProduct [in_month; TextIs (d_rng mr) "cancelada"])
  else if c =? 7 then
    Some (FSumProduct [in_month; TextIs (d_rng mr) "vendida"; TextIs (canal_rng mr) "Pix";
                       Values (f_rng mr)])
  else None.

(** The rows of three small records: one with an empty id, one with id
    -9 and one with id 3. *)
Definition row_of_empty_id : row :=
  Row (Date 2024 3 1) "" "Contrato #0" "pendente" "Pix" 3 "Não" "Ana" "Mensalidade" "PR".
Definition row_of_minus_nine : row :=
  Row (Date 2024 3 1) "" "Contrato #-9" "pendente" "Pix" 0 "Não" "Razi" "Produto" "MG".
Definition row_of_three : row :=
  Row (Date 2024 3 1) "" "Contrato #3" "pendente" "Pix" 0 "Não" "Razi" "Produto" "MG".

(** The row of the first sample proposal. *)
Definition row_of_bruno : row :=
  Row (Date 2024 3 2) "Bruno" "Contrato #0" "vendida" "Pix" 100 "Sim" "Ana"
      "Mensalidade" "PR".


(** Every range the cell refers to is in order. *)
Definition ranges_in_order (r c : Z) (v : cell) : Prop :=
  Forall (fun rg => range_valid rg = true) (cell_ranges v).

(** A runtime whose [json.loads] yields the document [v]: it stands for
    a run with the text of [v] on standard input. *)
Definition runtime_reading (v : pyval) : runtime :=
  Runtime (Date 2024 3 1) calendar_date (fun _ => "<object>") (fun _ => Ok v).

(** Records in date order. *)
Definition ordered_proposals : list pyval :=
  [PDict {[ "id" := PInt 1; "createdAt" := PStr "2024-01-05" ]};
   PDict {[ "id" := PInt 2; "createdAt" := PStr "2024-01-05" ]};
   PDict {[ "id" := PInt 3; "createdAt" := PStr "2024-02-01" ]}].

Definition ordered_rows : list row :=
  match for_each (derive_row demo_runtime) ordered_proposals with
  | Ok rows => rows
  | Raise _ => []
  end.

(** * Properties *)

(** ** The result monad *)

Lemma bind_ok {A B} (m : result A) (k : A -> result B) (b : B) :
  bind m k = Ok b -> exists a, m = Ok a /\ k a = Ok b.
Proof. destruct m as [a|e]; simpl; [eauto | discriminate]. Qed.


(** ** Stable sorting *)

Section SortingFacts.
Context {A : Type} (le : A -> A -> bool).
Hypothesis le_total : forall a b, le a b = true \/ le b a = true.
Hypothesis le_trans : forall a b c, le a b = true -> le b c = true -> le a c = true.

Local Abbreviation R := (fun a b : A => le a b = true).
Lemma insert_sorted_perm x l : insert_sorted le x l ≡ₚ x :: l.
Proof.
  induction l as [|y l IH]; simpl; [done|].
  destruct (le x y); [done|]. rewrite IH. apply perm_swap.
Qed.

Lemma stable_sort_perm l : stable_sort le l ≡ₚ l.
Proof.
  induction l as [|x l IH]; simpl; [done|].
  by rewrite insert_sorted_perm, IH.
Qed.

Lemma insert_sorted_sorted x l :
  StronglySorted R l -> StronglySorted R (insert_sorted le x l).
Proof.
  induction 1 as [|y l Hl IH Hy]; simpl.
  - repeat constructor.
  - destruct (le x y) eqn:Hxy.
    + constructor; [by constructor|].
      constructor; [done|].
      eapply Forall_impl; [exact Hy|]. intros z Hz. by eapply le_trans.
    + constructor; [done|].
      rewrite insert_sorted_perm. constructor; [|done].
      destruct (le_total x y) as [H|H]; [congruence | done].
Qed.

Lemma stable_sort_sorted l : StronglySorted R (stable_sort le l).
Proof.
  induction l as [|x l IH]; simpl; [constructor|].
  by apply insert_sorted_sorted.
Qed.

Lemma same_key_passed z x y :
  le x y = false -> same_key le z x = true -> same_key le z y = false.
Proof.
  unfold same_key. intros Hxy [Hzx Hxz]%andb_true_iff.
  destruct (le z y) eqn:Hzy; [|done]. simpl.
  assert (le x y = true) by (by eapply le_trans). congruence.
Qed.

Lemma insert_sorted_filter z x l :
  filter (fun y => same_key le z y = true) (insert_sorted le x l)
  = filter (fun y => same_key le z y = true) (x :: l).
Proof.
  induction l as [|y l IH]; simpl; [done|].
  destruct (le x y) eqn:Hxy; [done|].
  rewrite filter_cons, IH, !filter_cons.
  destruct (decide (same_key le z x = true)) as [Hx|Hx];
    destruct (decide (same_key le z y = true)) as [Hy|Hy]; try done.
  rewrite (same_key_passed z x y Hxy Hx) in Hy. discriminate.
Qed.

(** Stability: the elements of each key keep their order. *)
Lemma stable_sort_filter z l :
  filter (fun y => same_key le z y = true) (stable_sort le l)
  = filter (fun y => same_key le z y = true) l.
Proof.
  induction l as [|x l IH]; simpl; [done|].
  by rewrite insert_sorted_filter, !filter_cons, IH.
Qed.



End SortingFacts.

(** ** Text *)


Lemma append_cons (a : ascii) (s t : string) : String a s +:+ t = String a (s +:+ t).
Proof. reflexivity. Qed.

Lemma append_empty_r (s : string) : s +:+ "" = s.
Proof. induction s as [|a s IH]; [done | by rewrite append_cons, IH]. Qed.

Lemma append_assoc (s t u : string) : (s +:+ t) +:+ u = s +:+ (t +:+ u).
Proof. induction s as [|a s IH]; [done | by rewrite !append_cons, IH]. Qed.

Lemma replace_snoc (c : ascii) (by_ s : string) :
  Text.replace c by_ (s +:+ String c "") = Text.replace c by_ s +:+ by_.
Proof.
  induction s as [|x s IH].
  - change (Text.replace c by_ (String c "") = by_).
    simpl. rewrite Ascii.eqb_refl. apply append_empty_r.
  - rewrite append_cons. simpl. rewrite IH.
    destruct (Ascii.eqb x c); [|done].
    symmetry. apply append_assoc.
Qed.

(** ** Value parser *)




(** ** Date parser *)

(** C8. [parse_date] hands a native date back unchanged; any other
    input is read by [fromisoformat] from its text with 'Z' replaced by
    '+00:00' (a trailing 'Z' becomes a trailing '+00:00'); if that
    raises, the result is today's date.  It returns a date on every
    input. *)
Theorem parse_date_total (rt : runtime) :
  (forall d, parse_date rt (PDate d) = Ok d)
  /\ (forall raw,
        parse_date rt raw =
        match raw with
        | PDate d => Ok d
        | _ =>
            match fromisoformat rt (Text.replace "Z" "+00:00" (py_str rt raw)) with
            | Ok parsed => Ok (dt_date parsed)
            | Raise _ => Ok (today rt)
            end
        end)
  /\ (forall s, Text.replace "Z" "+00:00" (s +:+ "Z")
                = Text.replace "Z" "+00:00" s +:+ "+00:00")
  /\ (forall raw, exists d, parse_date rt raw = Ok d).
Proof.
  assert (Hshape : forall raw,
    parse_date rt raw =
    match raw with
    | PDate d => Ok d
    | _ =>
        match fromisoformat rt (Text.replace "Z" "+00:00" (py_str rt raw)) with
        | Ok parsed => Ok (dt_date parsed)
        | Raise _ => Ok (today rt)
        end
    end).
  { intros raw. unfold parse_date, try_except, bind.
    destruct raw; try reflexivity;
      match goal with |- context [fromisoformat rt ?t] =>
        destruct (fromisoformat rt t); reflexivity end. }
  split; [reflexivity|]. split; [exact Hshape|]. split.
  - intros s. apply replace_snoc.
  - intros raw. rewrite Hshape.
    destruct raw; eauto;
      match goal with |- context [fromisoformat rt ?t] =>
        destruct (fromisoformat rt t); eauto end.
Qed.

Example parse_date_calendar :
  parse_date demo_runtime (PStr "2024-03-01") = Ok (Date 2024 3 1).
Proof. reflexivity. Qed.

Example parse_date_fallback :
  parse_date demo_runtime (PStr "not-a-date") = Ok (today demo_runtime).
Proof. reflexivity. Qed.

(** ** Row derivation *)


Lemma getitem_ok {A} (xs : list A) (i : Z) (x : A) :
  0 <= i -> getitem xs i = Ok x -> xs !! Z.to_nat i = Some x.
Proof.
  intros Hi. unfold getitem.
  destruct (i <? 0) eqn:Hneg; [lia|]. rewrite Hneg.
  destruct (xs !! Z.to_nat i); congruence.
Qed.


(** What a derived row is made of. *)
Lemma derive_row_inv (rt : runtime) (d : gmap string pyval) (r : row) :
  derive_row rt (PDict d) = Ok r ->
  exists pid v day,
    record_id d = Ok pid
    /\ parse_value rt (dict_get d "value" PNone) = Ok v
    /\ parse_date rt (dict_get d "createdAt" PNone) = Ok day
    /\ synthetic_fields pid r
    /\ r_date r = day
    /\ r_value r = round2 v
    /\ r_client r = py_str rt (dict_get d "clientName" (PStr ""))
    /\ r_title r
       = py_str rt (dict_get d "title" (PStr ("Contrato #" +:+ Text.string_of_Z pid)))
    /\ r_status r = py_str rt (dict_get d "status" (PStr "pendente"))
    /\ r_paid r = (if String.eqb (r_status r) "vendida" then "Sim" else "Não").
Proof.
  unfold derive_row. simpl. intros H.
  apply bind_ok in H as (pid & Hpid & H).
  apply bind_ok in H as (day & Hday & H).
  apply bind_ok in H as (v & Hv & H).
  apply bind_ok in H as (ch & Hch & H).
  apply bind_ok in H as (se & Hse & H).
  apply bind_ok in H as (ca & Hca & H).
  apply bind_ok in H as (uf & Huf & H).
  inversion H; subst r; clear H. simpl.
  exists pid, v, day. repeat split; try done.
  - apply getitem_ok in Hch; [done | by apply Z.mod_pos_bound].
  - apply getitem_ok in Hse; [done | by apply Z.mod_pos_bound].
  - apply getitem_ok in Hca; [done | by apply Z.mod_pos_bound].
  - apply getitem_ok in Huf; [done | by apply Z.mod_pos_bound].
Qed.






(** C4. The channel, seller, category and region of a derived row are
    the table entries at [id mod 3], [(id+1) mod 4], [(id+2) mod 4] and
    [(id+3) mod 4]; two records with the same id get the same four
    fields whatever else they hold. *)
Theorem synthetic_fields_from_id (rt : runtime) :
  (forall d r, derive_row rt (PDict d) = Ok r ->
      exists pid, record_id d = Ok pid /\ synthetic_fields pid r)
  /\ (forall d z r, d !! "id" = Some (PInt z) -> derive_row rt (PDict d) = Ok r ->
        synthetic_fields z r)
  /\ (forall d1 d2 r1 r2,
        d1 !! "id" = d2 !! "id" ->
        derive_row rt (PDict d1) = Ok r1 -> derive_row rt (PDict d2) = Ok r2 ->
        r_channel r1 = r_channel r2 /\ r_seller r1 = r_seller r2
        /\ r_category r1 = r_category r2 /\ r_region r1 = r_region r2).
Proof.
  split; [|split].
  - intros d r Hr.
    apply derive_row_inv in Hr as (pid & _ & _ & Hpid & _ & _ & Hsyn & _). eauto.
  - intros d z r Hid Hr.
    apply derive_row_inv in Hr as (pid & _ & _ & Hpid & _ & _ & Hsyn & _).
    unfold record_id, dict_get in Hpid. rewrite Hid in Hpid. simpl in Hpid.
    unfold py_or in Hpid. simpl in Hpid.
    destruct (z =? 0) eqn:Hz; simpl in Hpid; inversion Hpid; subst pid; [|done].
    apply Z.eqb_eq in Hz. by subst z.
  - intros d1 d2 r1 r2 Hid H1 H2.
    apply derive_row_inv in H1 as (p1 & _ & _ & Hp1 & _ & _ & Hs1 & _).
    apply derive_row_inv in H2 as (p2 & _ & _ & Hp2 & _ & _ & Hs2 & _).
    unfold record_id, dict_get in Hp1, Hp2. rewrite Hid, Hp2 in Hp1.
    inversion Hp1; subst p2.
    destruct Hs1 as (A1 & B1 & C1 & D1), Hs2 as (A2 & B2 & C2 & D2).
    repeat split; congruence.
Qed.

Lemma synthetic_fields_from_id_witness :
  synthetic_fields 5
    {| r_date := Date 2024 3 1; r_client := "Ana Lima"; r_title := "Contrato #5";
       r_status := "vendida"; r_channel := "Boleto"; r_value := 10;
       r_paid := "Sim"; r_seller := "João"; r_category := "Setup";
       r_region := "SP" |}.
Proof.
  destruct (synthetic_fields_from_id demo_runtime) as (_ & Hint & _).
  apply (Hint {[ "id" := PInt 5; "status" := PStr "vendida";
                 "clientName" := PStr "Ana Lima"; "value" := PStr "10" ]} 5).
  - reflexivity.
  - vm_compute. reflexivity.
Defined.

(** ** Order of the rows *)

Lemma date_leb_total (a b : date) : date_leb a b = true \/ date_leb b a = true.
Proof.
  unfold date_leb.
  repeat match goal with
         | |- context [?x <? ?y] => destruct (Z.ltb_spec x y)
         end; auto; rewrite !Z.leb_le; lia.
Qed.

Lemma date_leb_trans (a b c : date) :
  date_leb a b = true -> date_leb b c = true -> date_leb a c = true.
Proof.
  unfold date_leb.
  repeat match goal with
         | |- context [?x <? ?y] => destruct (Z.ltb_spec x y)
         end; try done; rewrite ?Z.leb_le; try lia.
Qed.

Lemma date_leb_antisym (a b : date) :
  date_leb a b = true -> date_leb b a = true -> a = b.
Proof.
  destruct a as [y1 m1 d1], b as [y2 m2 d2]. unfold date_leb. simpl.
  repeat match goal with
         | |- context [?x <? ?y] => destruct (Z.ltb_spec x y)
         end; try done; rewrite ?Z.leb_le; try lia.
  intros. f_equal; lia.
Qed.

Lemma date_leb_refl (a : date) : date_leb a a = true.
Proof. destruct (date_leb_total a a); done. Qed.

Lemma same_date (day : date) (r : row) :
  same_key (fun a b => date_leb (r_date a) (r_date b)) (dated day) r = true
  <-> r_date r = day.
Proof.
  unfold same_key. simpl. rewrite andb_true_iff. split.
  - intros [H1 H2]. symmetry. by apply date_leb_antisym.
  - intros ->. by rewrite date_leb_refl.
Qed.

Lemma strongly_sorted_adjacent {A} (R : A -> A -> Prop) (l : list A) (i : nat) (a b : A) :
  StronglySorted R l -> l !! i = Some a -> l !! S i = Some b -> R a b.
Proof.
  intros Hs. revert i. induction Hs as [|x l Hl IH Hx]; intros i Ha Hb; [done|].
  destruct i as [|i]; simpl in *.
  - inversion Ha; subst. rewrite Forall_forall in Hx. apply Hx.
    by eapply list_elem_of_lookup_2.
  - by eapply IH.
Qed.

(** C7. The derived rows are in ascending date order: each row's date
    is at most the date of the row after it; they are the rows of the
    loop rearranged, and the rows of any one date are in the order in
    which the loop produced them. *)
Theorem rows_sorted_by_date (rt : runtime) (ps : list pyval) (rows : list row) :
  derive_rows rt ps = Ok rows ->
  exists derived,
    for_each (derive_row rt) ps = Ok derived
    /\ rows ≡ₚ derived
    /\ (forall i a b, rows !! i = Some a -> rows !! S i = Some b ->
          date_leb (r_date a) (r_date b) = true)
    /\ (forall day, filter (fun r => r_date r = day) rows
                    = filter (fun r => r_date r = day) derived).
Proof.
  unfold derive_rows. intros H. apply bind_ok in H as (derived & Hd & H).
  inversion H; subst rows; clear H. exists derived. unfold sorted_by_key.
  set (le := fun a b : row => date_leb (r_date a) (r_date b)).
  assert (Htot : forall a b, le a b = true \/ le b a = true)
    by (intros; apply date_leb_total).
  assert (Htr : forall a b c, le a b = true -> le b c = true -> le a c = true)
    by (intros a b c; apply date_leb_trans).
  split; [done|]. split; [apply stable_sort_perm|]. split.
  - intros i a b Ha Hb.
    eapply (strongly_sorted_adjacent (fun a b => le a b = true)); [|exact Ha|exact Hb].
    by apply stable_sort_sorted.
  - intros day.
    rewrite <- (list_filter_iff _ _ _ (same_date day)).
    rewrite (stable_sort_filter le Htr).
    apply list_filter_iff, same_date.
Qed.

Lemma rows_sorted_by_date_witness :
  exists derived,
    for_each (derive_row demo_runtime) sample_proposals = Ok derived
    /\ sample_rows ≡ₚ derived
    /\ (forall i a b, sample_rows !! i = Some a -> sample_rows !! S i = Some b ->
          date_leb (r_date a) (r_date b) = true)
    /\ (forall day, filter (fun r => r_date r = day) sample_rows
                    = filter (fun r => r_date r = day) derived).
Proof.
  apply (rows_sorted_by_date demo_runtime sample_proposals sample_rows).
  vm_compute. reflexivity.
Defined.

Example sample_rows_order :
  map r_title sample_rows = ["Contrato #1"; "Contrato #0"; "Contrato #2"].
Proof. vm_compute. reflexivity. Qed.

(** ** Client roster *)

Lemma string_leb_total (a b : string) : String.leb a b = true \/ String.leb b a = true.
Proof. apply String.leb_total. Qed.

Lemma string_leb_trans (a b c : string) :
  String.leb a b = true -> String.leb b c = true -> String.leb a c = true.
Proof.
  intros H1 H2. apply Is_true_true.
  apply (transitivity (R := String.le) (y := b)); by apply Is_true_true.
Qed.

Lemma string_leb_ltb (a b : string) :
  String.leb a b = true -> a <> b -> String.ltb a b = true.
Proof.
  unfold String.leb, String.ltb. intros Hle Hne.
  destruct (String.compare a b) eqn:Hc; [|reflexivity|discriminate].
  apply String.compare_eq_iff in Hc. contradiction.
Qed.

Lemma strictly_sorted (l : list string) :
  StronglySorted (fun a b => String.leb a b = true) l -> NoDup l ->
  StronglySorted (fun a b => String.ltb a b = true) l.
Proof.
  induction 1 as [|x l Hl IH Hx]; intros Hnd; [constructor|].
  apply NoDup_cons in Hnd as [Hnotin Hnd]. constructor; [by apply IH|].
  rewrite Forall_forall in Hx |- *. intros y Hy.
  apply string_leb_ltb; [by apply Hx|]. by intros ->.
Qed.

Lemma client_names_perm (rows : list row) :
  client_names rows ≡ₚ elements (client_set rows).
Proof. apply stable_sort_perm. Qed.

Lemma client_names_elem (rows : list row) (n : string) :
  n ∈ client_names rows <-> exists r, r ∈ rows /\ r_client r = n.
Proof.
  rewrite client_names_perm, elem_of_elements. unfold client_set.
  rewrite elem_of_list_to_set, list_elem_of_fmap.
  split; intros (r & H1 & H2); exists r; auto.
Qed.

Lemma client_names_nodup (rows : list row) : NoDup (client_names rows).
Proof. rewrite client_names_perm. apply NoDup_elements. Qed.

Lemma client_names_sorted (rows : list row) :
  StronglySorted (fun a b => String.ltb a b = true) (client_names rows).
Proof.
  apply strictly_sorted; [|apply client_names_nodup].
  apply stable_sort_sorted; [apply string_leb_total | apply string_leb_trans].
Qed.

(** *** Cells of the sheet "Clientes" *)

Lemma client_row_other (r : Z) (name : string) (ws : sheet) (r' c : Z) :
  r' <> r -> client_row r name ws !! (r', c) = ws !! (r', c).
Proof.
  intros Hr. unfold client_row, set_cell.
  by rewrite !lookup_insert_ne by congruence.
Qed.

Lemma client_row_name (r : Z) (name : string) (ws : sheet) :
  client_row r name ws !! (r, 1) = Some (CText name).
Proof.
  unfold client_row, set_cell.
  rewrite !lookup_insert_ne by congruence. apply lookup_insert_eq.
Qed.

Lemma client_rows_outside (names : list string) (r : Z) (ws : sheet) (r' c : Z) :
  r' < r \/ r + Z.of_nat (length names) <= r' ->
  client_rows r names ws !! (r', c) = ws !! (r', c).
Proof.
  revert r ws. induction names as [|n names IH]; intros r ws Hr; simpl; [done|].
  rewrite IH by (simpl in Hr; lia).
  apply client_row_other. simpl in Hr. lia.
Qed.

Lemma client_rows_name (names : list string) (r : Z) (ws : sheet) (i : nat) (n : string) :
  names !! i = Some n ->
  client_rows r names ws !! (r + Z.of_nat i, 1) = Some (CText n).
Proof.
  revert r ws i. induction names as [|m names IH]; intros r ws i Hi; [done|].
  cbn [client_rows]. destruct i as [|i]; simpl in Hi.
  - inversion Hi; subst. rewrite client_rows_outside by lia.
    replace (r + Z.of_nat 0) with r by lia. apply client_row_name.
  - replace (r + Z.of_nat (S i)) with (r + 1 + Z.of_nat i) by lia.
    by apply IH.
Qed.

Lemma total_row_other (t : Z) (ws : sheet) (r' c : Z) :
  r' <> t -> total_row t ws !! (r', c) = ws !! (r', c).
Proof.
  intros Hr. unfold total_row, set_cell.
  by rewrite !lookup_insert_ne by congruence.
Qed.

Lemma total_row_label (t : Z) (ws : sheet) :
  total_row t ws !! (t, 1) = Some (CText "TOTAL").
Proof.
  unfold total_row, set_cell.
  rewrite !lookup_insert_ne by congruence. apply lookup_insert_eq.
Qed.

(** Column A of "Clientes" from row 5 down: the names, then TOTAL,
    then nothing. *)
Lemma clients_sheet_column_a (names : list string) (i : nat) :
  clients_sheet names !! (5 + Z.of_nat i, 1) =
  match names !! i with
  | Some n => Some (CText n)
  | None => if decide (i = length names) then Some (CText "TOTAL") else None
  end.
Proof.
  unfold clients_sheet, clients_start.
  destruct (names !! i) as [n|] eqn:Hn.
  - apply lookup_lt_Some in Hn as Hlt.
    rewrite total_row_other by lia. by apply client_rows_name.
  - apply lookup_ge_None in Hn. destruct (decide (i = length names)) as [->|Hne].
    + apply total_row_label.
    + rewrite total_row_other by lia. rewrite client_rows_outside by lia.
      simpl. unfold set_cell. by rewrite !lookup_insert_ne by (intros [=]; lia).
Qed.

(** C3 (as the code has it). The rollup sheet has one row for each
    distinct clientName of the row collection, the empty name included
    when a row has it, in strictly ascending lexicographic order; the
    rows start at row 5 and the TOTAL row follows them. *)
Theorem client_rollup_rows (rows : list row) :
  (forall n, n ∈ client_names rows <-> exists r, r ∈ rows /\ r_client r = n)
  /\ NoDup (client_names rows)
  /\ StronglySorted (fun a b => String.ltb a b = true) (client_names rows)
  /\ (forall i : nat,
        ws_clients (build_workbook rows) !! (5 + Z.of_nat i, 1) =
        match client_names rows !! i with
        | Some n => Some (CText n)
        | None =>
            if decide (i = length (client_names rows)) then Some (CText "TOTAL")
            else None
        end).
Proof.
  split; [apply client_names_elem|]. split; [apply client_names_nodup|].
  split; [apply client_names_sorted|]. intros i. apply clients_sheet_column_a.
Qed.

(** A record without clientName yields a roster row for the empty name. *)
Lemma empty_client_has_roster_row :
  exists rows,
    derive_rows demo_runtime [PDict {[ "id" := PInt 1 ]}] = Ok rows
    /\ client_names rows = [""]
    /\ ws_clients (build_workbook rows) !! (5, 1) = Some (CText "")
    /\ ws_clients (build_workbook rows) !! (6, 1) = Some (CText "TOTAL").
Proof. eexists. split; [vm_compute; reflexivity|]. by vm_compute. Qed.

(** ** Ranking *)

Section RankingFacts.
Context {A : Type} (le : A -> A -> bool) (lt : A -> A -> Prop).
Hypothesis le_total : forall a b, le a b = true \/ le b a = true.
Hypothesis le_trans : forall a b c, le a b = true -> le b c = true -> le a c = true.



End RankingFacts.




(** *** Cells of the ranking table *)

Lemma seqZ_10 : seqZ 0 10 = [0; 1; 2; 3; 4; 5; 6; 7; 8; 9].
Proof. reflexivity. Qed.

Lemma seqZ_12 : seqZ 0 12 = [0; 1; 2; 3; 4; 5; 6; 7; 8; 9; 10; 11].
Proof. reflexivity. Qed.

Lemma top10_slot_lookup (ranking : list string) (i : Z) (ws : sheet) (r c : Z) :
  0 <= i ->
  top10_slot ranking i ws !! (r, c) =
  match (if decide (r = 44 + i) then ranking !! Z.to_nat i ≫= slot_cell c r else None) with
  | Some x => Some x
  | None => ws !! (r, c)
  end.
Proof.
  intros Hi. unfold top10_slot.
  destruct (ranking !! Z.to_nat i) as [name|] eqn:Hname.
  - apply lookup_lt_Some in Hname as Hlt.
    destruct (Z.ltb_spec i (Z.of_nat (length ranking))); [|lia].
    unfold set_at, set_cell.
    change (column_index "K") with 11. change (column_index "J") with 10.
    change (column_index "I") with 9.
    destruct (decide (r = 44 + i)) as [->|Hr].
    + simpl. unfold slot_cell.
      destruct (Z.eqb_spec c 9) as [->|H9].
      { rewrite !lookup_insert_ne by (intros [=]). apply lookup_insert_eq. }
      destruct (Z.eqb_spec c 10) as [->|H10].
      { rewrite lookup_insert_ne by (intros [=]). apply lookup_insert_eq. }
      destruct (Z.eqb_spec c 11) as [->|H11]; [apply lookup_insert_eq|].
      by rewrite !lookup_insert_ne by congruence.
    + by rewrite !lookup_insert_ne by congruence.
  - destruct (decide (r = 44 + i)); simpl; by destruct (i <? _).
Qed.

Lemma top10_fold_lookup (ranking : list string) (idx : list Z) (ws : sheet) (r c : Z) :
  Forall (fun i => 0 <= i) idx ->
  foldl (fun ws i => top10_slot ranking i ws) ws idx !! (r, c) =
  match (if decide (r - 44 ∈ idx) then ranking !! Z.to_nat (r - 44) ≫= slot_cell c r
         else None) with
  | Some x => Some x
  | None => ws !! (r, c)
  end.
Proof.
  revert ws. induction idx as [|i idx IH]; intros ws Hidx; cbn [foldl].
  - by rewrite decide_False by apply not_elem_of_nil.
  - apply Forall_cons in Hidx as [Hi Hidx]. rewrite IH by done.
    rewrite top10_slot_lookup by done.
    destruct (decide (r - 44 ∈ idx)) as [Hin|Hnin].
    + rewrite (decide_True (P := r - 44 ∈ i :: idx)) by (by right).
      destruct (ranking !! Z.to_nat (r - 44) ≫= slot_cell c r) eqn:Hslot; [done|].
      destruct (decide (r = 44 + i)) as [->|]; [|done].
      replace (44 + i - 44) with i in Hslot by lia. by rewrite Hslot.
    + destruct (decide (r = 44 + i)) as [->|Hne].
      * replace (44 + i - 44) with i by lia.
        by rewrite (decide_True (P := i ∈ i :: idx)) by left.
      * rewrite (decide_False (P := r - 44 ∈ i :: idx)); [done|].
        intros [?|?]%elem_of_cons; [lia | done].
Qed.

(** Nothing of the dashboard below row 43 is written before the ranking. *)
Lemma dashboard_base_below (mr r c : Z) : 44 <= r -> dashboard_base mr !! (r, c) = None.
Proof.
  intros Hr. unfold dashboard_base, trend_table. rewrite seqZ_12.
  cbv [foldl trend_row status_table kpi_cards kpi_card kpi_cells write_row set_at
       set_cell map series_headers].
  repeat (rewrite lookup_insert_ne by (intros [=]; lia)).
  apply lookup_empty.
Qed.

Lemma dashboard_slot (rows : list row) (names : list string) (mr : Z) (i : nat) (c : Z) :
  dashboard rows names mr !! (44 + Z.of_nat i, c) =
  if decide (i < 10)%nat
  then sorted_clients rows names !! i ≫= slot_cell c (44 + Z.of_nat i)
  else None.
Proof.
  unfold dashboard, top10_table. rewrite top10_fold_lookup.
  2:{ rewrite seqZ_10. repeat constructor; lia. }
  rewrite dashboard_base_below by lia.
  replace (44 + Z.of_nat i - 44) with (Z.of_nat i) by lia. rewrite Nat2Z.id.
  destruct (decide (i < 10)%nat) as [Hlt|Hge].
  - rewrite decide_True by (apply elem_of_seqZ; lia). by destruct (_ ≫= _).
  - rewrite decide_False; [done|]. rewrite elem_of_seqZ. lia.
Qed.


Example ranking_of_twelve :
  ranking_column (build_workbook twelve_clients)
  = map (fun n => Some (CText n))
        ["c112"; "c111"; "c110"; "c109"; "c108"; "c107"; "c106"; "c105"; "c104"; "c103"].
Proof. vm_compute. reflexivity. Qed.

Example ranking_with_ties :
  ranking_column (build_workbook tied_clients)
  = [Some (CText "Davi"); Some (CText "Ana"); Some (CText "Bia"); Some (CText "Caio");
     None; None; None; None; None; None].
Proof. vm_compute. reflexivity. Qed.

(** ** KPI cells *)

Lemma count_rows (e : engine) (crit : string) (rows : list row) :
  (forall r, r ∈ rows -> text_matches e crit (r_status r) = String.eqb crit (r_status r)) ->
  length (filter (fun cells => cell_matches e crit (in_column "D" cells) = true)
                 (map row_cells rows))
  = length (filter (fun r => r_status r = crit) rows).
Proof.
  induction rows as [|r rows IH]; intros He; [done|].
  cbn [map]. rewrite !filter_cons.
  change (in_column "D" (row_cells r)) with (Some (CText (r_status r))).
  cbn [cell_matches]. rewrite (He r) by left.
  assert (IH' := IH (fun r' Hr' => He r' (list_elem_of_further _ _ _ Hr'))).
  destruct (String.eqb_spec crit (r_status r)) as [Heq|Hne].
  - rewrite decide_True by done. rewrite decide_True by done.
    cbn [length]. by rewrite IH'.
  - rewrite decide_False by done. rewrite decide_False by congruence. done.
Qed.

Lemma sum_rows (e : engine) (crit : string) (rows : list row) :
  (forall r, r ∈ rows -> text_matches e crit (r_status r) = String.eqb crit (r_status r)) ->
  map (fun cells => cell_number (in_column "F" cells))
      (filter (fun cells => row_matches e [("D", crit)] cells = true) (map row_cells rows))
  = map r_value (filter (fun r => r_status r = crit) rows).
Proof.
  induction rows as [|r rows IH]; intros He; [done|].
  cbn [map]. rewrite !filter_cons.
  assert (Hm : row_matches e [("D", crit)] (row_cells r)
               = String.eqb crit (r_status r)).
  { unfold row_matches. cbn [forallb fst snd].
    change (in_column "D" (row_cells r)) with (Some (CText (r_status r))).
    cbn [cell_matches]. rewrite (He r) by left. apply andb_true_r. }
  rewrite Hm.
  assert (IH' := IH (fun r' Hr' => He r' (list_elem_of_further _ _ _ Hr'))).
  destruct (String.eqb_spec crit (r_status r)) as [Heq|Hne].
  - rewrite decide_True by done. rewrite decide_True by done.
    cbn [map]. by rewrite IH'.
  - rewrite decide_False by done. rewrite decide_False by congruence. done.
Qed.

Lemma header_not_status (e : engine) (rows : list row) (crit : string) :
  engine_exact_on e rows -> crit ∈ ["vendida"; "pendente"; "cancelada"] ->
  text_matches e crit "Status" = false.
Proof.
  intros He Hc. rewrite (He crit "Status" Hc) by left.
  repeat (apply elem_of_cons in Hc as [->|Hc]; [reflexivity|]).
  by apply elem_of_nil in Hc.
Qed.

Lemma countif_status (e : engine) (rows : list row) (crit : string) :
  engine_exact_on e rows -> crit ∈ ["vendida"; "pendente"; "cancelada"] ->
  countif e (data_sheet rows) "D" crit = count_status rows crit.
Proof.
  intros He Hc. unfold countif, count_status, data_sheet. f_equal.
  rewrite filter_cons.
  change (in_column "D" (map CText headers)) with (Some (CText "Status")).
  cbn [cell_matches]. rewrite (header_not_status e rows crit He Hc).
  rewrite decide_False by done.
  apply count_rows. intros r Hr. apply He; [done|].
  right. apply list_elem_of_fmap. eauto.
Qed.

Lemma sumifs_sold (e : engine) (rows : list row) :
  engine_exact_on e rows ->
  sumifs e (data_sheet rows) "F" [("D", "vendida")] = total_revenue rows.
Proof.
  intros He. unfold sumifs, total_revenue, data_sheet. f_equal.
  assert (Hc : "vendida" ∈ ["vendida"; "pendente"; "cancelada"]) by left.
  rewrite filter_cons.
  assert (Hh : row_matches e [("D", "vendida")] (map CText headers) = false).
  { unfold row_matches. cbn [forallb fst snd].
    change (in_column "D" (map CText headers)) with (Some (CText "Status")).
    cbn [cell_matches]. by rewrite (header_not_status e rows _ He Hc). }
  rewrite Hh. rewrite decide_False by done.
  apply sum_rows. intros r Hr. apply He; [done|].
  right. apply list_elem_of_fmap. eauto.
Qed.

(** The KPI cells survive the rest of the dashboard. *)
Lemma dashboard_kpi (rows : list row) (names : list string) (mr r : Z) :
  r < 44 -> dashboard rows names mr !! (r, 19) = dashboard_base mr !! (r, 19).
Proof.
  intros Hr. unfold dashboard, top10_table. rewrite top10_fold_lookup.
  - rewrite decide_False; [done|]. rewrite elem_of_seqZ. lia.
  - rewrite seqZ_10. repeat constructor; lia.
Qed.

Lemma kpi_formulas (mr : Z) :
  dashboard_base mr !! (6, 19) = Some (CFormula (FSumIfs "F" [("D", CritText "vendida")]))
  /\ dashboard_base mr !! (7, 19) = Some (CFormula (FCountIf "D" "vendida"))
  /\ dashboard_base mr !! (8, 19) = Some (CFormula (FCountIf "D" "pendente"))
  /\ dashboard_base mr !! (9, 19) = Some (CFormula (FCountIf "D" "cancelada"))
  /\ dashboard_base mr !! (10, 19)
     = Some (CFormula (FIfError (FDiv (FCell None "S" 6) (FCell None "S" 7)) (FNum 0)))
  /\ dashboard_base mr !! (11, 19)
     = Some (CFormula (FIfError
          (FDiv (FCell None "S" 7)
                (FAdd (FAdd (FCell None "S" 7) (FCell None "S" 8)) (FCell None "S" 9)))
          (FNum 0))).
Proof. repeat split; vm_compute; reflexivity. Qed.

Lemma eval_cell (fuel : nat) (e : engine) (wb : workbook) (col : string) (r : Z)
    (g : formula) :
  ws_dash wb !! (r, column_index col) = Some (CFormula g) ->
  eval (S fuel) e wb (FCell None col r) = eval fuel e wb g.
Proof. intros H. cbn [eval]. rewrite bool_decide_true by (by left). by rewrite H. Qed.


Lemma eval_sumifs_text (fuel : nat) (e : engine) (wb : workbook) (col c crit : string) :
  eval (S fuel) e wb (FSumIfs col [(c, CritText crit)])
  = Some (VNum (sumifs e (ws_data wb) col [(c, crit)])).
Proof. reflexivity. Qed.

Lemma eval_div (fuel : nat) (e : engine) (wb : workbook) (a b : formula) (va vb : value) :
  eval fuel e wb a = Some va -> eval fuel e wb b = Some vb ->
  eval (S fuel) e wb (FDiv a b) = Some (div_values va vb).
Proof. intros Ha Hb. cbn [eval]. by rewrite Ha, Hb. Qed.

Lemma eval_add (fuel : nat) (e : engine) (wb : workbook) (a b : formula) (va vb : value) :
  eval fuel e wb a = Some va -> eval fuel e wb b = Some vb ->
  eval (S fuel) e wb (FAdd a b) = Some (add_values va vb).
Proof. intros Ha Hb. cbn [eval]. by rewrite Ha, Hb. Qed.

Lemma eval_iferror (fuel : nat) (e : engine) (wb : workbook) (a b : formula) (va : value) :
  eval fuel e wb a = Some va ->
  eval (S fuel) e wb (FIfError a b)
  = match va with VError => eval fuel e wb b | _ => Some va end.
Proof. intros Ha. cbn [eval]. by rewrite Ha. Qed.

Lemma kpi_revenue (e : engine) (rows : list row) (k : nat) :
  engine_exact_on e rows ->
  eval (S (S k)) e (build_workbook rows) (FCell None "S" 6)
  = Some (VNum (total_revenue rows)).
Proof.
  intros He. destruct (kpi_formulas (max_row (data_sheet rows))) as (H6 & _).
  erewrite eval_cell; [|cbn [ws_dash build_workbook]; rewrite dashboard_kpi by lia; exact H6].
  rewrite eval_sumifs_text. cbn [ws_data build_workbook]. by rewrite sumifs_sold.
Qed.

Lemma kpi_count (e : engine) (rows : list row) (k : nat) (r : Z) (crit : string) :
  engine_exact_on e rows ->
  (r, crit) ∈ [(7, "vendida"); (8, "pendente"); (9, "cancelada")] ->
  eval (S (S k)) e (build_workbook rows) (FCell None "S" r)
  = Some (VNum (inject_Z (count_status rows crit))).
Proof.
  intros He Hr.
  destruct (kpi_formulas (max_row (data_sheet rows))) as (_ & H7 & H8 & H9 & _).
  assert (Hf : dashboard_base (max_row (data_sheet rows)) !! (r, 19)
               = Some (CFormula (FCountIf "D" crit))
               /\ crit ∈ ["vendida"; "pendente"; "cancelada"] /\ r < 44).
  { apply elem_of_cons in Hr as [[= -> ->]|Hr];
      [split; [exact H7 | split; [left | lia]]|].
    apply elem_of_cons in Hr as [[= -> ->]|Hr];
      [split; [exact H8 | split; [right; left | lia]]|].
    apply elem_of_cons in Hr as [[= -> ->]|Hr];
      [split; [exact H9 | split; [right; right; left | lia]]|].
    by apply elem_of_nil in Hr. }
  destruct Hf as (Hf & Hc & Hlt).
  erewrite eval_cell; [|cbn [ws_dash build_workbook]; rewrite dashboard_kpi by lia; exact Hf].
  cbn [eval ws_data build_workbook]. by rewrite countif_status.
Qed.



(** The three proposals of the specification's example. *)
Example sample_aggregates :
  (total_revenue sample_rows == 100)%Q
  /\ count_status sample_rows "vendida" = 1
  /\ count_status sample_rows "pendente" = 1
  /\ count_status sample_rows "cancelada" = 1
  /\ (average_ticket sample_rows == 100)%Q
  /\ (conversion_rate sample_rows == 1 # 3)%Q.
Proof. repeat split; vm_compute; reflexivity. Qed.

(** An application that ignores letter case still satisfies the
    assumption on lower-case statuses, and counts "VENDIDA" as sold. *)
Example folding_engine_on_sample : engine_exact_on folding_engine sample_rows.
Proof.
  intros crit s Hc Hs.
  repeat (apply elem_of_cons in Hc as [->|Hc];
          [repeat (apply elem_of_cons in Hs as [->|Hs]; [reflexivity|]);
           by apply elem_of_nil in Hs|]).
  by apply elem_of_nil in Hc.
Qed.

Example folding_engine_other_case :
  countif folding_engine (data_sheet [Row (Date 2024 3 1) "Ana" "t" "VENDIDA" "Pix" 10
                                          "Não" "Ana" "Setup" "SP"]) "D" "vendida" = 1.
Proof. reflexivity. Qed.

(** ** Empty input *)

(** The guard of the conditional formats is the condition under which
    the row ranges of the trend table hold a cell. *)
Lemma trend_ranges_valid_iff (mr : Z) :
  forallb range_valid [a_rng mr; d_rng mr; f_rng mr; canal_rng mr] = (2 <=? mr)
  /\ (conditional_formats mr = [] <-> (2 <=? mr) = false).
Proof.
  split.
  - unfold range_valid. simpl. by destruct (2 <=? mr).
  - unfold conditional_formats. by destruct (2 <=? mr).
Qed.

(** C2 (the code at the empty proposal list). Generation succeeds with
    no rows, no roster entry and no filled ranking slot, and the
    conditional formats are skipped by their guard; but the sixty
    formulas of the trend table are built over rows 2 to 1 of the data
    sheet, and the totals of the rollup sheet over rows 5 to 4. *)
Theorem empty_input_inverted_ranges (rt : runtime) :
  derive_rows rt [] = Ok []
  /\ max_row (ws_data (build_workbook [])) = 1
  /\ client_names [] = []
  /\ (forall i c, ws_dash (build_workbook []) !! (44 + Z.of_nat i, c) = None)
  /\ cond_formats (build_workbook []) = []
  /\ ws_dash (build_workbook []) !! (24, 3)
     = Some (CFormula (FSumProduct
         [MonthIs (Range (Some "Dados") "A" 2 1) "B" 24;
          TextIs (Range (Some "Dados") "D" 2 1) "vendida";
          Values (Range (Some "Dados") "F" 2 1)]))
  /\ ws_clients (build_workbook []) !! (5, 2) = Some (CFormula (FSum (Range None "B" 5 4)))
  /\ range_valid (Range (Some "Dados") "A" 2 1) = false
  /\ range_valid (Range None "B" 5 4) = false
  /\ Permutation (invalid_ranges (build_workbook []))
       ["Dados!$A$2:$A$1"; "Dados!$D$2:$D$1"; "Dados!$E$2:$E$1"; "Dados!$F$2:$F$1";
        "B5:B4"; "C5:C4"; "D5:D4"; "E5:E4"].
Proof.
  split; [reflexivity|]. split; [reflexivity|]. split; [reflexivity|].
  split.
  { intros i c. cbn [ws_dash build_workbook]. rewrite dashboard_slot.
    destruct (decide (i < 10)%nat); [|done].
    change (sorted_clients [] (client_names [])) with (@nil string).
    by rewrite lookup_nil. }
  split; [reflexivity|]. split; [by vm_compute|]. split; [by vm_compute|].
  split; [reflexivity|]. split; [reflexivity|].
  apply (Permutation_trans (l' :=
    ["C5:C4"; "E5:E4"; "B5:B4"; "D5:D4"; "Dados!$E$2:$E$1";
     "Dados!$F$2:$F$1"; "Dados!$A$2:$A$1"; "Dados!$D$2:$D$1"])).
  - assert (H : invalid_ranges (build_workbook []) =
      ["C5:C4"; "E5:E4"; "B5:B4"; "D5:D4"; "Dados!$E$2:$E$1";
       "Dados!$F$2:$F$1"; "Dados!$A$2:$A$1"; "Dados!$D$2:$D$1"])
      by (vm_compute; reflexivity).
    by rewrite H.
  - apply NoDup_Permutation.
    + apply (bool_decide_unpack _). by vm_compute.
    + apply (bool_decide_unpack _). by vm_compute.
    + intros x. rewrite !elem_of_cons, !elem_of_nil. tauto.
Qed.

(** With at least one row every range of the workbook is in order. *)
Example sample_ranges_valid : invalid_ranges (build_workbook sample_rows) = [].
Proof. vm_compute. reflexivity. Qed.

(** ** Empty standard input *)

(** C10. Empty standard input is read as the document [{}]: whatever
    [json.loads] would do with the empty text, the proposal list is
    empty and the workbook of no rows is saved. *)
Theorem empty_stdin_saves_workbook (rt : runtime) (prog out : string) (more : list string) :
  json_loads rt "{}" = Ok (PDict ∅) ->
  main rt (prog :: out :: more) "" = main rt (prog :: out :: more) "{}"
  /\ main rt (prog :: out :: more) "" = Ok (Saved out (build_workbook []))
  /\ script rt (prog :: out :: more) "" = Saved out (build_workbook []).
Proof.
  intros Hjson. split; [reflexivity|].
  assert (Hmain : main rt (prog :: out :: more) "" = Ok (Saved out (build_workbook []))).
  { unfold main. cbn [Text.truthy]. rewrite Hjson. reflexivity. }
  split; [exact Hmain|]. unfold script. by rewrite Hmain.
Qed.

Lemma empty_stdin_saves_workbook_witness :
  json_loads demo_runtime "" = Raise JSONDecodeError
  /\ script demo_runtime ["generate_premium_dashboard_excel.py"; "out.xlsx"] ""
     = Saved "out.xlsx" (build_workbook []).
Proof.
  split; [reflexivity|].
  apply (empty_stdin_saves_workbook demo_runtime
           "generate_premium_dashboard_excel.py" "out.xlsx" []).
  reflexivity.
Defined.

(** * Further properties of the program *)

(** ** Exit status *)

Lemma main_with_document (rt : runtime) (prog out : string) (more : list string)
    (stdin : string) (doc : gmap string pyval) :
  stdin <> "" -> json_loads rt stdin = Ok (PDict doc) ->
  main rt (prog :: out :: more) stdin =
  (let! proposals := iterate (dict_get doc "proposals" (PList [])) in
   let! rows := derive_rows rt proposals in
   Ok (Saved out (build_workbook rows))).
Proof.
  intros Hne Hjson. unfold main.
  destruct stdin as [|c stdin]; [done|]. cbn [Text.truthy]. by rewrite Hjson.
Qed.

(** X1. The run ends with status 2 exactly when the output path is
    missing, whatever is on standard input; any other failure ends it
    with status 1; and a saved workbook goes to the first argument. *)
Theorem script_exit_status (rt : runtime) (argv : list string) (stdin : string) :
  ((length argv < 2)%nat -> script rt argv stdin = Exited 2)
  /\ (forall code, script rt argv stdin = Exited code ->
        (code = 2 /\ (length argv < 2)%nat)
        \/ (code = 1 /\ (2 <= length argv)%nat /\ exists e, main rt argv stdin = Raise e))
  /\ (forall out wb, script rt argv stdin = Saved out wb -> argv !! 1%nat = Some out).
Proof.
  unfold script, main.
  destruct argv as [|prog [|out more]]; cbn [length].
  - split; [done|]. split; [|done]. intros code [= <-]. left. split; [done | lia].
  - split; [done|]. split; [|done]. intros code [= <-]. left. split; [done | lia].
  - split; [lia|].
    destruct (json_loads rt _) as [payload|e]; cbn [bind];
      [|split; [intros code [= <-]; right; split; [done|split; [lia|eauto]] | done]].
    destruct (as_dict payload) as [doc|e]; cbn [bind];
      [|split; [intros code [= <-]; right; split; [done|split; [lia|eauto]] | done]].
    destruct (iterate _) as [ps|e]; cbn [bind];
      [|split; [intros code [= <-]; right; split; [done|split; [lia|eauto]] | done]].
    destruct (derive_rows rt ps) as [rows|e]; cbn [bind];
      [|split; [intros code [= <-]; right; split; [done|split; [lia|eauto]] | done]].
    split; [done|]. by intros out' wb [= <- _].
Qed.

Lemma script_exit_status_witness :
  script demo_runtime ["generate_premium_dashboard_excel.py"] "{}" = Exited 2.
Proof.
  destruct (script_exit_status demo_runtime ["generate_premium_dashboard_excel.py"] "{}")
    as (H & _).
  apply H. simpl. lia.
Defined.

(** X2. A document without the key "proposals" is treated like an
    empty proposal list: the workbook of no rows is saved. *)
Theorem missing_proposals_key (rt : runtime) (prog out : string) (more : list string)
    (stdin : string) (doc : gmap string pyval) :
  stdin <> "" -> json_loads rt stdin = Ok (PDict doc) -> doc !! "proposals" = None ->
  script rt (prog :: out :: more) stdin = Saved out (build_workbook []).
Proof.
  intros Hne Hjson Hmiss. unfold script.
  rewrite (main_with_document rt prog out more stdin doc Hne Hjson).
  unfold dict_get. by rewrite Hmiss.
Qed.

Lemma missing_proposals_key_witness :
  script demo_runtime ["prog"; "out.xlsx"] "{}" = Saved "out.xlsx" (build_workbook []).
Proof.
  apply (missing_proposals_key demo_runtime "prog" "out.xlsx" [] "{}" ∅);
    [discriminate | reflexivity | reflexivity].
Defined.

(** X3. Input that [json.loads] rejects, or that is not a JSON object
    at top level, ends the run with status 1 and saves nothing. *)
Theorem bad_document_exits_1 (rt : runtime) (prog out : string) (more : list string)
    (stdin : string) :
  stdin <> "" ->
  (exists e, json_loads rt stdin = Raise e)
  \/ (exists v, json_loads rt stdin = Ok v /\ forall d, v <> PDict d) ->
  script rt (prog :: out :: more) stdin = Exited 1.
Proof.
  intros Hne Hbad. unfold script, main.
  destruct stdin as [|c stdin]; [done|]. cbn [Text.truthy].
  destruct Hbad as [[e ->]|(v & -> & Hv)]; [done|].
  cbn [bind]. destruct v; try done. by destruct (Hv d).
Qed.

Lemma bad_document_exits_1_witness :
  script demo_runtime ["prog"; "out.xlsx"] "[]" = Exited 1
  /\ script demo_runtime ["prog"; "out.xlsx"] "{oops" = Exited 1.
Proof.
  split.
  - apply (bad_document_exits_1 demo_runtime "prog" "out.xlsx" [] "[]"); [discriminate|].
    right. exists (PList []). split; [reflexivity | discriminate].
  - apply (bad_document_exits_1 demo_runtime "prog" "out.xlsx" [] "{oops"); [discriminate|].
    left. exists JSONDecodeError. reflexivity.
Defined.

Lemma for_each_first_failure {A B} (f : A -> result B) (good : list A) (bad : A)
    (rest : list A) (e : exn) :
  Forall (fun x => is_ok (f x) = true) good -> f bad = Raise e ->
  for_each f (good ++ bad :: rest) = Raise e.
Proof.
  intros Hgood Hbad. induction Hgood as [|x good Hx _ IH]; cbn [app for_each].
  - by rewrite Hbad.
  - destruct (f x); [|done]. cbn [bind]. by rewrite IH.
Qed.

(** X4. The "proposals" entry need not be a list.  A value with no
    items (empty text, empty object) gives the workbook of no rows; any
    other value that is not a list ends the run with status 1. *)
Theorem proposals_not_a_list (rt : runtime) (prog out : string) (more : list string)
    (stdin : string) (doc : gmap string pyval) (v : pyval) :
  stdin <> "" -> json_loads rt stdin = Ok (PDict doc) -> doc !! "proposals" = Some v ->
  (forall l, v <> PList l) ->
  script rt (prog :: out :: more) stdin =
  if has_no_items v then Saved out (build_workbook []) else Exited 1.
Proof.
  intros Hne Hjson Hv Hnl. unfold script.
  rewrite (main_with_document rt prog out more stdin doc Hne Hjson).
  unfold dict_get. rewrite Hv. cbn [default from_option id].
  destruct v as [|b|z|q|s|l|d|day]; try done.
  - destruct s as [|c s]; [done|]. reflexivity.
  - by destruct (Hnl l).
  - cbn [iterate bind has_no_items].
    destruct (map_to_list d) as [|[k x] kvs] eqn:Hkv.
    + apply map_to_list_empty_iff in Hkv. by rewrite bool_decide_true.
    + rewrite bool_decide_false; [reflexivity|].
      intros ->. by rewrite map_to_list_empty in Hkv.
Qed.

Lemma proposals_not_a_list_witness :
  script (runtime_reading (PDict {[ "proposals" := PStr "abc" ]})) ["prog"; "out.xlsx"]
    "text" = Exited 1.
Proof.
  apply (proposals_not_a_list (runtime_reading (PDict {[ "proposals" := PStr "abc" ]}))
           "prog" "out.xlsx" [] "text" {[ "proposals" := PStr "abc" ]} (PStr "abc"));
    [discriminate | reflexivity | reflexivity | discriminate].
Defined.

(** X5. Row derivation stops at the first record that fails and raises
    that record's exception, whatever follows it. *)
Theorem derive_rows_first_failure (rt : runtime) (good : list pyval) (bad : pyval)
    (rest : list pyval) (e : exn) :
  Forall (fun p => is_ok (derive_row rt p) = true) good ->
  derive_row rt bad = Raise e ->
  derive_rows rt (good ++ bad :: rest) = Raise e.
Proof.
  intros Hgood Hbad. unfold derive_rows.
  by rewrite (for_each_first_failure _ good bad rest e Hgood Hbad).
Qed.

Lemma derive_rows_first_failure_witness :
  derive_rows demo_runtime
    ([PDict ∅] ++ PDict {[ "value" := PStr "abc" ]} :: [PInt 3]) = Raise ValueError.
Proof.
  apply (derive_rows_first_failure demo_runtime [PDict ∅]
           (PDict {[ "value" := PStr "abc" ]}) [PInt 3] ValueError).
  - repeat constructor.
  - reflexivity.
Defined.

(** ** The data sheet *)

Lemma for_each_length {A B} (f : A -> result B) (xs : list A) (ys : list B) :
  for_each f xs = Ok ys -> length ys = length xs.
Proof.
  revert ys. induction xs as [|x xs IH]; intros ys H; cbn [for_each] in H.
  - by inversion H.
  - apply bind_ok in H as (y & _ & H). apply bind_ok in H as (ys' & Hys & H).
    inversion H; subst. cbn [length]. f_equal. by apply IH.
Qed.

(** X6. Every proposal gives exactly one row of the data sheet: after
    the header in row 1 the [i]-th derived row fills sheet row [i + 2],
    [max_row] is the number of proposals plus one, and in every row the
    columns A, B, D, E and F that the formulas read hold the date, the
    client, the status, the channel and the value. *)
Theorem one_row_per_proposal (rt : runtime) (ps : list pyval) (rows : list row) :
  derive_rows rt ps = Ok rows ->
  length rows = length ps
  /\ max_row (ws_data (build_workbook rows)) = 1 + Z.of_nat (length ps)
  /\ ws_data (build_workbook rows) !! 0%nat = Some (map CText headers)
  /\ (forall i : nat, ws_data (build_workbook rows) !! S i = row_cells <$> rows !! i)
  /\ (forall (i : nat) (r : row), rows !! i = Some r ->
        exists cells,
          ws_data (build_workbook rows) !! S i = Some cells
          /\ length cells = length headers
          /\ in_column "A" cells = Some (CDate (r_date r))
          /\ in_column "B" cells = Some (CText (r_client r))
          /\ in_column "D" cells = Some (CText (r_status r))
          /\ in_column "E" cells = Some (CText (r_channel r))
          /\ in_column "F" cells = Some (CNum (r_value r))).
Proof.
  intros H. unfold derive_rows in H. apply bind_ok in H as (derived & Hd & H).
  inversion H; subst rows; clear H.
  assert (Hlen : length (sorted_by_key date_leb r_date derived) = length ps).
  { rewrite <- (for_each_length _ _ _ Hd). apply Permutation_length, stable_sort_perm. }
  split; [exact Hlen|]. split.
  { cbn [ws_data build_workbook]. unfold max_row, data_sheet.
    cbn [length]. rewrite length_map, Hlen. lia. }
  split; [reflexivity|]. split.
  { intros i. cbn [ws_data build_workbook]. unfold data_sheet.
    cbn [lookup list_lookup]. apply list_lookup_fmap. }
  intros i r Hr. exists (row_cells r). split.
  { cbn [ws_data build_workbook]. unfold data_sheet. cbn [lookup list_lookup].
    pose proof (list_lookup_fmap row_cells
                  (sorted_by_key date_leb r_date derived) i) as E.
    rewrite Hr in E. exact E. }
  repeat split.
Qed.

Lemma one_row_per_proposal_witness :
  length sample_rows = length sample_proposals
  /\ max_row (ws_data (build_workbook sample_rows)) = 4.
Proof.
  destruct (one_row_per_proposal demo_runtime sample_proposals sample_rows)
    as (Hlen & Hmax & _); [vm_compute; reflexivity|].
  split; [exact Hlen | exact Hmax].
Defined.

Section SortedInput.
Context {A : Type} (le : A -> A -> bool).

Lemma stable_sort_of_sorted (l : list A) :
  StronglySorted (fun a b => le a b = true) l -> stable_sort le l = l.
Proof.
  induction 1 as [|x l Hl IH Hx]; [done|].
  cbn [stable_sort]. rewrite IH.
  destruct l as [|y l]; [done|]. cbn [insert_sorted].
  apply Forall_cons in Hx as [Hxy _]. by rewrite Hxy.
Qed.
End SortedInput.

(** X7. When the records already come in ascending date order the
    rows are kept in the order of the input. *)
Theorem sorted_input_kept (rt : runtime) (ps : list pyval) (derived : list row) :
  for_each (derive_row rt) ps = Ok derived ->
  StronglySorted (fun a b => date_leb (r_date a) (r_date b) = true) derived ->
  derive_rows rt ps = Ok derived.
Proof.
  intros Hd Hsorted. unfold derive_rows. rewrite Hd. cbn [bind].
  unfold sorted_by_key. by rewrite stable_sort_of_sorted.
Qed.

Lemma sorted_input_kept_witness :
  derive_rows demo_runtime ordered_proposals = Ok ordered_rows.
Proof.
  apply (sorted_input_kept demo_runtime ordered_proposals ordered_rows).
  - vm_compute. reflexivity.
  - repeat constructor.
Defined.

(** ** The roster *)

(** X8. The roster depends only on which client names occur in the
    rows: rows with the same names, in any order and any number, give
    the same roster; and the roster is never longer than the rows. *)
Theorem roster_depends_on_names (rows rows' : list row) :
  (forall n, n ∈ map r_client rows <-> n ∈ map r_client rows') ->
  client_names rows = client_names rows'
  /\ (length (client_names rows) <= length rows)%nat.
Proof.
  intros Hsame. split.
  - unfold client_names. f_equal. f_equal. unfold client_set.
    apply set_eq. intros n. rewrite !elem_of_list_to_set. apply Hsame.
  - rewrite (Permutation_length (client_names_perm rows)).
    unfold client_set.
    assert (Hnd : NoDup (elements (list_to_set (map r_client rows) : gset string)))
      by apply NoDup_elements.
    rewrite <- (length_map r_client rows).
    apply submseteq_length, NoDup_submseteq; [done|].
    intros n Hn. by apply elem_of_elements, elem_of_list_to_set in Hn.
Qed.

Lemma roster_depends_on_names_witness :
  client_names sample_rows = client_names (sample_rows ++ sample_rows)
  /\ (length (client_names sample_rows) <= length sample_rows)%nat.
Proof.
  apply (roster_depends_on_names sample_rows (sample_rows ++ sample_rows)).
  intros n. rewrite map_app, elem_of_app. tauto.
Defined.

(** ** Invariants of the sheets *)

Lemma sheet_inv_empty (P : Z -> Z -> cell -> Prop) : sheet_inv P ∅.
Proof. intros r c v H. by rewrite lookup_empty in H. Qed.

Lemma sheet_inv_insert (P : Z -> Z -> cell -> Prop) (r c : Z) (v : cell) (ws : sheet) :
  P r c v -> sheet_inv P ws -> sheet_inv P (<[(r, c) := v]> ws).
Proof.
  intros Hv Hws r' c' v' H.
  destruct (decide ((r, c) = (r', c'))) as [[= <- <-]|Hne].
  - rewrite lookup_insert_eq in H. by inversion H; subst.
  - rewrite lookup_insert_ne in H by done. by apply Hws.
Qed.

Lemma sheet_inv_write_row (P : Z -> Z -> cell -> Prop) (r : Z) (xs : list cell)
    (c : Z) (ws : sheet) :
  (forall c' x, x ∈ xs -> P r c' x) -> sheet_inv P ws ->
  sheet_inv P (write_row r c xs ws).
Proof.
  revert c ws. induction xs as [|x xs IH]; intros c ws Hxs Hws; [done|].
  cbn [write_row]. apply IH.
  - intros c' y Hy. apply Hxs. by right.
  - apply sheet_inv_insert; [apply Hxs; left | done].
Qed.

Lemma text_own_row (r c : Z) (s : string) : own_row r c (CText s).
Proof. intros f Hf. discriminate. Qed.

Lemma client_row_own_row (r : Z) (name : string) (ws : sheet) :
  sheet_inv own_row ws -> sheet_inv own_row (client_row r name ws).
Proof.
  intros Hws. unfold client_row, set_cell.
  repeat (apply sheet_inv_insert;
          [first [apply text_own_row
                 | intros f Hf; inversion Hf; subst; cbn; repeat constructor]|]).
  done.
Qed.

Lemma client_rows_own_row (names : list string) (r : Z) (ws : sheet) :
  sheet_inv own_row ws -> sheet_inv own_row (client_rows r names ws).
Proof.
  revert r ws. induction names as [|n names IH]; intros r ws Hws; [done|].
  cbn [client_rows]. by apply IH, client_row_own_row.
Qed.

Lemma total_row_own_row (t : Z) (ws : sheet) :
  sheet_inv own_row ws -> sheet_inv own_row (total_row t ws).
Proof.
  intros Hws. unfold total_row, set_cell.
  repeat (apply sheet_inv_insert;
          [first [apply text_own_row
                 | intros f Hf; inversion Hf; subst; cbn; repeat constructor]|]).
  done.
Qed.

(** X9. On the sheet "Clientes" every formula reads, through its cell
    references and criterion cells, only cells of the row it stands
    in. *)
Theorem clients_formulas_own_row (rows : list row) (r c : Z) (f : formula) :
  ws_clients (build_workbook rows) !! (r, c) = Some (CFormula f) ->
  Forall (fun r' => r' = r) (formula_rows f).
Proof.
  intros H.
  assert (Hinv : sheet_inv own_row (ws_clients (build_workbook rows))).
  { cbn [ws_clients build_workbook]. unfold clients_sheet.
    apply total_row_own_row, client_rows_own_row, sheet_inv_write_row.
    - intros c' x Hx. apply list_elem_of_fmap in Hx as (s' & -> & _). apply text_own_row.
    - unfold set_cell.
      repeat (apply sheet_inv_insert; [apply text_own_row|]). apply sheet_inv_empty. }
  by apply (Hinv r c (CFormula f) H).
Qed.

Lemma clients_formulas_own_row_witness :
  Forall (fun r' => r' = 6)
    (formula_rows (FSumIfs "F" [("B", CritCell "A" 6); ("D", CritText "vendida")])).
Proof.
  apply (clients_formulas_own_row sample_rows 6 2). vm_compute. reflexivity.
Defined.

Lemma total_row_sum (t : Z) (ws : sheet) :
  total_row t ws !! (t, 2) = Some (CFormula (FSum (Range None "B" clients_start (t - 1))))
  /\ total_row t ws !! (t, 3) = Some (CFormula (FSum (Range None "C" clients_start (t - 1))))
  /\ total_row t ws !! (t, 4) = Some (CFormula (FSum (Range None "D" clients_start (t - 1))))
  /\ total_row t ws !! (t, 5) = Some (CFormula (FSum (Range None "E" clients_start (t - 1)))).
Proof.
  unfold total_row, set_cell.
  repeat split; rewrite ?lookup_insert_ne by congruence; apply lookup_insert_eq.
Qed.

(** X10. The TOTAL row stands right after the client rows and its four
    sums run over rows 5 to 4 + n of their own column, which are
    exactly the rows of the n clients. *)
Theorem totals_cover_client_rows (rows : list row) :
  ws_clients (build_workbook rows) !! (5 + Z.of_nat (length (client_names rows)), 2)
  = Some (CFormula (FSum (Range None "B" 5 (4 + Z.of_nat (length (client_names rows))))))
  /\ ws_clients (build_workbook rows) !! (5 + Z.of_nat (length (client_names rows)), 3)
     = Some (CFormula (FSum (Range None "C" 5 (4 + Z.of_nat (length (client_names rows))))))
  /\ ws_clients (build_workbook rows) !! (5 + Z.of_nat (length (client_names rows)), 4)
     = Some (CFormula (FSum (Range None "D" 5 (4 + Z.of_nat (length (client_names rows))))))
  /\ ws_clients (build_workbook rows) !! (5 + Z.of_nat (length (client_names rows)), 5)
     = Some (CFormula (FSum (Range None "E" 5 (4 + Z.of_nat (length (client_names rows))))))
  /\ (forall i : nat,
        5 + Z.of_nat i <= 4 + Z.of_nat (length (client_names rows))
        <-> exists n, ws_clients (build_workbook rows) !! (5 + Z.of_nat i, 1)
                      = Some (CText n)
                      /\ client_names rows !! i = Some n).
Proof.
  cbn [ws_clients build_workbook]. unfold clients_sheet.
  set (n := length (client_names rows)).
  destruct (total_row_sum (clients_start + Z.of_nat n)
              (client_rows clients_start (client_names rows)
                 (write_row 4 1 (map CText client_headers)
                    (set_cell 2 1
                       (CText "Baseado na aba Dados. Ideal para priorizar follow-up e ver receita por cliente.")
                       (set_cell 1 1 (CText "Clientes — Ranking e Métricas") ∅)))))
    as (HB & HC & HD & HE).
  unfold clients_start in *.
  replace (5 + Z.of_nat n - 1) with (4 + Z.of_nat n) in * by lia.
  split; [exact HB|]. split; [exact HC|]. split; [exact HD|]. split; [exact HE|].
  intros i. pose proof (clients_sheet_column_a (client_names rows) i) as Hcol.
  unfold clients_sheet, clients_start in Hcol. fold n in Hcol. rewrite Hcol.
  split.
  - intros Hi. destruct (client_names rows !! i) as [name|] eqn:Hname; [eauto|].
    apply lookup_ge_None in Hname. fold n in Hname. lia.
  - intros (name & _ & Hname). apply lookup_lt_Some in Hname. fold n in Hname. lia.
Qed.

Lemma sheet_ranges_in_order (ws : sheet) :
  sheet_inv ranges_in_order ws ->
  Forall (fun rg => range_valid rg = true) (sheet_ranges ws).
Proof.
  intros Hinv. rewrite Forall_forall. intros rg Hrg.
  unfold sheet_ranges in Hrg. apply list_elem_of_In, in_flat_map in Hrg.
  destruct Hrg as ([[r c] v] & Hkv & Hin).
  apply list_elem_of_In, elem_of_map_to_list in Hkv.
  specialize (Hinv r c v Hkv). unfold ranges_in_order in Hinv.
  rewrite Forall_forall in Hinv. by apply Hinv, list_elem_of_In.
Qed.

Lemma no_ranges (r c : Z) (v : cell) : cell_ranges v = [] -> ranges_in_order r c v.
Proof. unfold ranges_in_order. by intros ->. Qed.

Lemma sum_in_order (r c : Z) (sh : option string) (col : string) (lo hi : Z) :
  lo <= hi -> ranges_in_order r c (CFormula (FSum (Range sh col lo hi))).
Proof. intros H. repeat constructor. by apply Z.leb_le. Qed.

Lemma sumproduct_in_order (r c : Z) (xs : list factor) :
  Forall (fun x => rg_first (factor_range x) <= rg_last (factor_range x)) xs ->
  ranges_in_order r c (CFormula (FSumProduct xs)).
Proof.
  intros H. unfold ranges_in_order. cbn [cell_ranges formula_ranges].
  apply Forall_fmap. eapply Forall_impl; [exact H|].
  intros x Hx. by apply Z.leb_le.
Qed.

Lemma client_rows_ranges (names : list string) (r : Z) (ws : sheet) :
  sheet_inv ranges_in_order ws -> sheet_inv ranges_in_order (client_rows r names ws).
Proof.
  revert r ws. induction names as [|n names IH]; intros r ws Hws; [done|].
  cbn [client_rows]. apply IH. unfold client_row, set_cell.
  repeat (apply sheet_inv_insert; [by apply no_ranges|]). done.
Qed.

Lemma clients_sheet_ranges (names : list string) :
  names <> [] -> sheet_inv ranges_in_order (clients_sheet names).
Proof.
  intros Hne. unfold clients_sheet, total_row, set_cell.
  assert (Hlen : (0 < length names)%nat) by (destruct names; [done | simpl; lia]).
  repeat (apply sheet_inv_insert;
          [first [by apply no_ranges
                 | apply sum_in_order; unfold clients_start; lia]|]).
  apply client_rows_ranges, sheet_inv_write_row.
  - intros c' x Hx. apply list_elem_of_fmap in Hx as (s' & -> & _). by apply no_ranges.
  - repeat (apply sheet_inv_insert; [by apply no_ranges|]). apply sheet_inv_empty.
Qed.

Lemma top10_table_inv (P : Z -> Z -> cell -> Prop) (ranking : list string) (ws : sheet) :
  (forall r c name v, slot_cell c r name = Some v -> P r c v) ->
  sheet_inv P ws -> sheet_inv P (top10_table ranking ws).
Proof.
  intros Hslot. unfold top10_table. generalize (seqZ 0 10). intros idx.
  revert ws. induction idx as [|i idx IH]; intros ws Hws; [done|].
  cbn [foldl]. apply IH. unfold top10_slot.
  destruct (i <? _); [|done]. destruct (ranking !! Z.to_nat i) as [name|]; [|done].
  unfold set_at, set_cell.
  apply sheet_inv_insert; [by apply (Hslot _ _ name)|].
  apply sheet_inv_insert; [by apply (Hslot _ _ name)|].
  apply sheet_inv_insert; [by apply (Hslot _ _ name)|]. done.
Qed.

Lemma dashboard_base_ranges (mr : Z) :
  2 <= mr -> sheet_inv ranges_in_order (dashboard_base mr).
Proof.
  intros Hmr. unfold dashboard_base, trend_table. rewrite seqZ_12.
  cbv [foldl trend_row status_table kpi_cards kpi_card kpi_cells write_row set_at
       set_cell map series_headers a_rng d_rng f_rng canal_rng].
  repeat (apply sheet_inv_insert;
          [first [by apply no_ranges
                 | apply sumproduct_in_order; repeat constructor; exact Hmr]|]).
  apply sheet_inv_empty.
Qed.

Lemma dashboard_ranges (rows : list row) (names : list string) (mr : Z) :
  2 <= mr -> sheet_inv ranges_in_order (dashboard rows names mr).
Proof.
  intros Hmr. unfold dashboard. apply top10_table_inv; [|by apply dashboard_base_ranges].
  intros r c name v Hv. apply no_ranges. unfold slot_cell in Hv.
  repeat (destruct (_ =? _); [by inversion Hv|]). done.
Qed.

(** X11. As soon as there is one row, every range the workbook refers
    to holds at least one cell and has its corners in order. *)
Theorem nonempty_ranges_in_order (rows : list row) :
  rows <> [] ->
  Forall (fun rg => range_valid rg = true) (workbook_ranges (build_workbook rows)).
Proof.
  intros Hne. unfold workbook_ranges. cbn [cond_formats ws_clients ws_dash build_workbook].
  assert (Hmr : 2 <= max_row (data_sheet rows)).
  { unfold max_row, data_sheet. destruct rows; [done|]. simpl. lia. }
  apply Forall_app. split; [|apply Forall_app; split].
  - unfold conditional_formats. destruct (Z.leb_spec 2 (max_row (data_sheet rows))); [|lia].
    cbn [map fst]. repeat constructor; unfold range_valid; cbn; by apply Z.leb_le.
  - apply sheet_ranges_in_order, clients_sheet_ranges.
    destruct rows as [|r rows]; [done|]. intros Hnil.
    assert (Hin : r_client r ∈ client_names (r :: rows))
      by (apply client_names_elem; exists r; split; [left | done]).
    rewrite Hnil in Hin. by apply elem_of_nil in Hin.
  - by apply sheet_ranges_in_order, dashboard_ranges.
Qed.

Lemma nonempty_ranges_in_order_witness :
  Forall (fun rg => range_valid rg = true) (workbook_ranges (build_workbook sample_rows)).
Proof. apply (nonempty_ranges_in_order sample_rows). discriminate. Defined.

(** ** The tables of the dashboard *)

Lemma dashboard_above (rows : list row) (names : list string) (mr r c : Z) :
  r < 44 -> dashboard rows names mr !! (r, c) = dashboard_base mr !! (r, c).
Proof.
  intros Hr. unfold dashboard, top10_table. rewrite top10_fold_lookup.
  - rewrite decide_False; [done|]. rewrite elem_of_seqZ. lia.
  - rewrite seqZ_10. repeat constructor; lia.
Qed.

Lemma trend_cells (mr i c : Z) :
  0 <= i < 12 -> 2 <= c <= 7 ->
  dashboard_base mr !! (24 + i, c) = CFormula <$> trend_formula mr (24 + i) c.
Proof.
  intros Hi Hc.
  assert (Hi' : i ∈ seqZ 0 12) by (apply elem_of_seqZ; lia).
  assert (Hc' : c ∈ seqZ 2 6) by (apply elem_of_seqZ; lia).
  rewrite seqZ_12 in Hi'. change (seqZ 2 6) with [2; 3; 4; 5; 6; 7] in Hc'.
  repeat (apply elem_of_cons in Hi' as [->|Hi']; [
    repeat (apply elem_of_cons in Hc' as [->|Hc']; [vm_compute; reflexivity|]);
    by apply elem_of_nil in Hc'|]).
  by apply elem_of_nil in Hi'.
Qed.

(** X12. The trend table is rows 24 to 35 of the final dashboard,
    oldest month first: row 24 + i is labelled with the month 11 - i
    months back, and each of its five sums tests the dates against the
    label of its own row over rows 2 to [max_row] of the data sheet. *)
Theorem trend_table_rows (rows : list row) (i : Z) :
  0 <= i < 12 ->
  ws_dash (build_workbook rows) !! (24 + i, 2) = Some (CFormula (FMonthLabel (11 - i)))
  /\ (forall c, 3 <= c <= 7 ->
        exists xs,
          ws_dash (build_workbook rows) !! (24 + i, c) = Some (CFormula (FSumProduct xs))
          /\ xs !! 0%nat
             = Some (MonthIs (Range (Some "Dados") "A" 2 (1 + Z.of_nat (length rows)))
                             "B" (24 + i))
          /\ Forall (fun x => rg_sheet (factor_range x) = Some "Dados"
                              /\ rg_first (factor_range x) = 2
                              /\ rg_last (factor_range x) = 1 + Z.of_nat (length rows)) xs).
Proof.
  intros Hi. cbn [ws_dash build_workbook].
  assert (Hmr : max_row (data_sheet rows) = 1 + Z.of_nat (length rows)).
  { unfold max_row, data_sheet. cbn [length]. rewrite length_map. lia. }
  rewrite Hmr. split.
  - rewrite dashboard_above, trend_cells by lia.
    unfold trend_formula. replace (35 - (24 + i)) with (11 - i) by lia. reflexivity.
  - intros c Hc. rewrite dashboard_above, trend_cells by lia.
    unfold trend_formula.
    assert (Hc' : c ∈ seqZ 3 5) by (apply elem_of_seqZ; lia).
    change (seqZ 3 5) with [3; 4; 5; 6; 7] in Hc'.
    repeat (apply elem_of_cons in Hc' as [->|Hc'];
            [eexists; split; [reflexivity|]; split; [reflexivity|];
             repeat constructor|]).
    by apply elem_of_nil in Hc'.
Qed.

Lemma trend_table_rows_witness :
  ws_dash (build_workbook sample_rows) !! (24 + 11, 2) = Some (CFormula (FMonthLabel (11 - 11))).
Proof.
  destruct (trend_table_rows sample_rows 11) as (H & _); [lia|]. exact H.
Defined.

Lemma dashboard_base_own_row (mr : Z) : sheet_inv table_own_row (dashboard_base mr).
Proof.
  unfold dashboard_base, trend_table. rewrite seqZ_12.
  cbv [foldl trend_row status_table kpi_cards kpi_card kpi_cells write_row set_at
       set_cell map series_headers].
  repeat (apply sheet_inv_insert;
          [first [intros _; apply text_own_row
                 | intros Hr; exfalso; revert Hr; vm_compute; intuition congruence
                 | intros _ f Hf; inversion Hf; subst; cbn; repeat constructor]|]).
  apply sheet_inv_empty.
Qed.

(** X13. In the trend table and in the ranking table of the dashboard
    every formula reads, through its cell references, criterion cells
    and month tests, only cells of the row it stands in. *)
Theorem dashboard_tables_own_row (rows : list row) (r c : Z) (f : formula) :
  24 <= r <= 35 \/ 44 <= r ->
  ws_dash (build_workbook rows) !! (r, c) = Some (CFormula f) ->
  Forall (fun r' => r' = r) (formula_rows f).
Proof.
  intros Hr H.
  assert (Hinv : sheet_inv table_own_row (ws_dash (build_workbook rows))).
  { cbn [ws_dash build_workbook]. unfold dashboard.
    apply top10_table_inv; [|apply dashboard_base_own_row].
    intros r0 c0 name v Hv _ g Hg. subst v. unfold slot_cell in Hv.
    repeat (destruct (_ =? _); [inversion Hv; subst; cbn; repeat constructor|]).
    discriminate. }
  by apply (Hinv r c (CFormula f) H Hr).
Qed.

Lemma dashboard_tables_own_row_witness :
  Forall (fun r' => r' = 44)
    (formula_rows (FCountIfs [("B", CritCell "I" 44); ("D", CritText "vendida")])).
Proof.
  apply (dashboard_tables_own_row sample_rows 44 11); [lia|]. vm_compute. reflexivity.
Defined.

(** ** More on the KPI cells *)

(** X14. With an application that compares the status criteria as
    equal text, the cells S7, S8 and S9 show the numbers of rows with
    status "vendida", "pendente" and "cancelada". *)
Theorem kpi_counts (e : engine) (rows : list row) (fuel : nat) :
  (2 <= fuel)%nat ->
  engine_exact_on e rows ->
  dash_value fuel e (build_workbook rows) "S" 7
  = Some (VNum (inject_Z (count_status rows "vendida")))
  /\ dash_value fuel e (build_workbook rows) "S" 8
     = Some (VNum (inject_Z (count_status rows "pendente")))
  /\ dash_value fuel e (build_workbook rows) "S" 9
     = Some (VNum (inject_Z (count_status rows "cancelada"))).
Proof.
  intros Hfuel He. do 2 (destruct fuel as [|fuel]; [lia|]).
  unfold dash_value. repeat split; apply kpi_count; try done.
  - left.
  - right; left.
  - right; right; left.
Qed.

Lemma kpi_counts_witness :
  dash_value 2 exact_engine (build_workbook sample_rows) "S" 7
  = Some (VNum (inject_Z (count_status sample_rows "vendida")))
  /\ dash_value 2 exact_engine (build_workbook sample_rows) "S" 8
     = Some (VNum (inject_Z (count_status sample_rows "pendente")))
  /\ dash_value 2 exact_engine (build_workbook sample_rows) "S" 9
     = Some (VNum (inject_Z (count_status sample_rows "cancelada"))).
Proof.
  apply (kpi_counts exact_engine sample_rows 2); [lia|].
  intros crit s _ _. reflexivity.
Defined.

Lemma eval_mirror (fuel : nat) (e : engine) (wb : workbook) (col : string) (r r' : Z) :
  ws_dash wb !! (r, column_index col) = Some (CFormula (kpi_ref r')) ->
  dash_value (S fuel) e wb col r = dash_value fuel e wb "S" r'.
Proof.
  intros H. unfold dash_value. rewrite (eval_cell _ _ _ _ _ _ H).
  unfold kpi_ref. destruct fuel as [|fuel]; [done|]. cbn [eval].
  by rewrite !bool_decide_true by auto.
Qed.

(** X15. The six KPI cards and the status table only repeat the hidden
    KPI cells: each of their value cells shows what the cell of column
    S it names shows. *)
Theorem kpi_cards_mirror (e : engine) (rows : list row) (fuel : nat) :
  Forall (fun t : string * Z * Z =>
            dash_value (S fuel) e (build_workbook rows) t.1.1 t.1.2
            = dash_value fuel e (build_workbook rows) "S" t.2)
    [("B", 7, 6); ("G", 7, 7); ("L", 7, 8); ("B", 15, 10); ("G", 15, 11); ("L", 15, 9);
     ("C", 38, 7); ("C", 39, 8); ("C", 40, 9)].
Proof.
  repeat (apply Forall_cons; split;
          [apply eval_mirror; cbn [ws_dash build_workbook fst snd];
           rewrite dashboard_above by (vm_compute; reflexivity);
           vm_compute; reflexivity|]).
  constructor.
Qed.

Lemma kpi_cells_on_empty (e : engine) (k : nat) (r : Z) :
  engine_exact_on e [] -> 6 <= r <= 9 ->
  eval (S (S k)) e (build_workbook []) (FCell None "S" r) = Some (VNum 0%Q).
Proof.
  intros He Hr.
  assert (Hcases : r = 6 \/ r = 7 \/ r = 8 \/ r = 9) by lia.
  destruct Hcases as [H|[H|[H|H]]]; subst r.
  - by rewrite kpi_revenue.
  - rewrite (kpi_count e [] k 7 "vendida"); [done | done | left].
  - rewrite (kpi_count e [] k 8 "pendente"); [done | done | right; left].
  - rewrite (kpi_count e [] k 9 "cancelada"); [done | done | right; right; left].
Qed.

(** X16. With no proposals all six KPI cells S6 to S11 show 0; the
    two quotients fall back to 0 instead of an error value. *)
Theorem empty_input_kpis_zero (e : engine) (fuel : nat) :
  (7 <= fuel)%nat ->
  engine_exact_on e [] ->
  Forall (fun r => dash_value fuel e (build_workbook []) "S" r = Some (VNum 0%Q))
    [6; 7; 8; 9; 10; 11].
Proof.
  intros Hfuel He. do 7 (destruct fuel as [|fuel]; [lia|]). clear Hfuel.
  destruct (kpi_formulas (max_row (data_sheet []))) as (_ & _ & _ & _ & H10 & H11).
  assert (Hs : forall k r, 6 <= r <= 9 ->
             eval (S (S k)) e (build_workbook []) (FCell None "S" r) = Some (VNum 0%Q))
    by (intros k r Hr; by apply kpi_cells_on_empty).
  unfold dash_value.
  constructor; [apply Hs; lia|]. constructor; [apply Hs; lia|].
  constructor; [apply Hs; lia|]. constructor; [apply Hs; lia|].
  constructor; [|constructor; [|constructor]].
  - erewrite eval_cell;
      [|cbn [ws_dash build_workbook]; rewrite dashboard_kpi by lia; exact H10].
    erewrite eval_iferror; [|eapply eval_div; apply Hs; lia].
    reflexivity.
  - erewrite eval_cell;
      [|cbn [ws_dash build_workbook]; rewrite dashboard_kpi by lia; exact H11].
    erewrite eval_iferror;
      [|eapply eval_div;
         [apply Hs; lia | eapply eval_add; [eapply eval_add|]; apply Hs; lia]].
    reflexivity.
Qed.

Lemma empty_input_kpis_zero_witness :
  Forall (fun r => dash_value 7 exact_engine (build_workbook []) "S" r = Some (VNum 0%Q))
    [6; 7; 8; 9; 10; 11].
Proof.
  apply (empty_input_kpis_zero exact_engine 7); [lia|].
  intros crit s _ _. reflexivity.
Defined.

(** ** The cut of the ranking *)




(** ** Ids *)

Lemma record_id_int (d : gmap string pyval) (z : Z) :
  d !! "id" = Some (PInt z) -> record_id d = Ok z.
Proof.
  intros Hid. unfold record_id, dict_get, py_or. rewrite Hid. cbn.
  destruct (Z.eqb_spec z 0) as [->|]; reflexivity.
Qed.

(** X18. A record whose id is missing, or present but false in the
    sense of [or] (null, 0, 0.0, false, empty text, empty list or
    object), is derived with id 0: channel "Pix", seller "Ana",
    category "Mensalidade", region "PR" and, without a title of its
    own, the title "Contrato #0". *)
Theorem missing_id_is_zero (rt : runtime) (d : gmap string pyval) (r : row) :
  d !! "id" = None \/ (exists v, d !! "id" = Some v /\ truthy v = false) ->
  derive_row rt (PDict d) = Ok r ->
  record_id d = Ok 0
  /\ r_channel r = "Pix" /\ r_seller r = "Ana"
  /\ r_category r = "Mensalidade" /\ r_region r = "PR"
  /\ (d !! "title" = None -> r_title r = "Contrato #0").
Proof.
  intros Hid Hr.
  assert (H0 : record_id d = Ok 0).
  { unfold record_id, dict_get, py_or. destruct Hid as [->|(v & -> & Hv)]; [done|].
    cbn [default from_option id]. by rewrite Hv. }
  apply derive_row_inv in Hr
    as (pid & v & day & Hpid & _ & _ & Hsyn & _ & _ & _ & Hti & _).
  rewrite H0 in Hpid. inversion Hpid; subst pid.
  destruct Hsyn as (Hc & Hs & Hk & Hu). cbn in Hc, Hs, Hk, Hu.
  inversion Hc. inversion Hs. inversion Hk. inversion Hu.
  repeat split; try done.
  intros Hmiss. rewrite Hti. unfold dict_get. by rewrite Hmiss.
Qed.

Lemma missing_id_is_zero_witness :
  record_id {[ "id" := PStr ""; "value" := PInt 3 ]} = Ok 0
  /\ r_channel row_of_empty_id = "Pix" /\ r_seller row_of_empty_id = "Ana"
  /\ r_category row_of_empty_id = "Mensalidade" /\ r_region row_of_empty_id = "PR"
  /\ (({[ "id" := PStr ""; "value" := PInt 3 ]} : gmap string pyval) !! "title" = None ->
      r_title row_of_empty_id = "Contrato #0").
Proof.
  apply (missing_id_is_zero demo_runtime {[ "id" := PStr ""; "value" := PInt 3 ]}
           row_of_empty_id).
  - right. exists (PStr ""). split; reflexivity.
  - vm_compute. reflexivity.
Defined.

(** X19. The four synthetic fields repeat with period 12 in the id,
    for negative ids as well: ids that differ by a multiple of 12 get
    the same channel, seller, category and region. *)
Theorem synthetic_fields_period (rt : runtime) (d1 d2 : gmap string pyval) (z k : Z)
    (r1 r2 : row) :
  d1 !! "id" = Some (PInt z) -> d2 !! "id" = Some (PInt (z + 12 * k)) ->
  derive_row rt (PDict d1) = Ok r1 -> derive_row rt (PDict d2) = Ok r2 ->
  r_channel r1 = r_channel r2 /\ r_seller r1 = r_seller r2
  /\ r_category r1 = r_category r2 /\ r_region r1 = r_region r2.
Proof.
  intros Hid1 Hid2 H1 H2.
  apply derive_row_inv in H1 as (p1 & _ & _ & Hp1 & _ & _ & Hs1 & _).
  apply derive_row_inv in H2 as (p2 & _ & _ & Hp2 & _ & _ & Hs2 & _).
  rewrite (record_id_int d1 z Hid1) in Hp1. rewrite (record_id_int d2 _ Hid2) in Hp2.
  inversion Hp1; subst p1. inversion Hp2; subst p2.
  destruct Hs1 as (A1 & B1 & C1 & D1), Hs2 as (A2 & B2 & C2 & D2).
  replace ((z + 12 * k) mod 3) with (z mod 3) in A2
    by (replace (z + 12 * k) with (z + (4 * k) * 3) by lia; by rewrite Z_mod_plus_full).
  replace ((z + 12 * k + 1) mod 4) with ((z + 1) mod 4) in B2
    by (replace (z + 12 * k + 1) with (z + 1 + (3 * k) * 4) by lia;
        by rewrite Z_mod_plus_full).
  replace ((z + 12 * k + 2) mod 4) with ((z + 2) mod 4) in C2
    by (replace (z + 12 * k + 2) with (z + 2 + (3 * k) * 4) by lia;
        by rewrite Z_mod_plus_full).
  replace ((z + 12 * k + 3) mod 4) with ((z + 3) mod 4) in D2
    by (replace (z + 12 * k + 3) with (z + 3 + (3 * k) * 4) by lia;
        by rewrite Z_mod_plus_full).
  repeat split; congruence.
Qed.

Lemma synthetic_fields_period_witness :
  r_channel row_of_minus_nine = r_channel row_of_three
  /\ r_seller row_of_minus_nine = r_seller row_of_three
  /\ r_category row_of_minus_nine = r_category row_of_three
  /\ r_region row_of_minus_nine = r_region row_of_three.
Proof.
  apply (synthetic_fields_period demo_runtime
           {[ "id" := PInt (-9) ]} {[ "id" := PInt (-9 + 12 * 1) ]} (-9) 1).
  - reflexivity.
  - reflexivity.
  - vm_compute. reflexivity.
  - vm_compute. reflexivity.
Defined.

(** ** Points in value texts *)








Example plain_decimal_text_is_scaled :
  parse_value demo_runtime (PStr "1234.56") = Ok 123456%Q.
Proof. reflexivity. Qed.

(** ** What every derived row satisfies *)

Lemma for_each_elem {A B} (f : A -> result B) (xs : list A) (ys : list B) (y : B) :
  for_each f xs = Ok ys -> y ∈ ys -> exists x, x ∈ xs /\ f x = Ok y.
Proof.
  revert ys. induction xs as [|x xs IH]; intros ys H Hin; cbn [for_each] in H.
  - inversion H; subst. by apply elem_of_nil in Hin.
  - apply bind_ok in H as (y0 & Hy0 & H). apply bind_ok in H as (ys' & Hys & H).
    inversion H; subst. apply elem_of_cons in Hin as [->|Hin].
    + exists x. split; [left | done].
    + destruct (IH _ Hys Hin) as (x' & ? & ?). exists x'. split; [by right | done].
Qed.

(** X21. Every row of the row collection comes from one of the
    proposals, its channel, seller, category and region are entries of
    the four fixed tables, and its paid flag is "Sim" exactly when its
    status is "vendida" and "Não" otherwise. *)
Theorem derived_rows_invariant (rt : runtime) (ps : list pyval) (rows : list row) (r : row) :
  derive_rows rt ps = Ok rows -> r ∈ rows ->
  (exists p, p ∈ ps /\ derive_row rt p = Ok r)
  /\ r_channel r ∈ channels /\ r_seller r ∈ sellers
  /\ r_category r ∈ cats /\ r_region r ∈ ufs
  /\ (r_paid r = "Sim" <-> r_status r = "vendida")
  /\ (r_paid r = "Não" <-> r_status r <> "vendida").
Proof.
  intros H Hr. unfold derive_rows in H. apply bind_ok in H as (derived & Hd & H).
  inversion H; subst rows; clear H.
  unfold sorted_by_key in Hr. rewrite stable_sort_perm in Hr.
  destruct (for_each_elem _ _ _ _ Hd Hr) as (p & Hp & Hrow).
  split; [eauto|].
  destruct p as [| | | | | |d|]; try discriminate.
  apply derive_row_inv in Hrow
    as (pid & v & day & _ & _ & _ & (Hc & Hs & Hk & Hu) & _ & _ & _ & _ & _ & Hpaid).
  split; [by eapply list_elem_of_lookup_2|]. split; [by eapply list_elem_of_lookup_2|].
  split; [by eapply list_elem_of_lookup_2|]. split; [by eapply list_elem_of_lookup_2|].
  rewrite Hpaid. destruct (String.eqb_spec (r_status r) "vendida") as [Heq|Hne].
  - split; split; done.
  - split; split; done.
Qed.

Lemma derived_rows_invariant_witness :
  (exists p, p ∈ sample_proposals /\ derive_row demo_runtime p = Ok row_of_bruno)
  /\ r_channel row_of_bruno ∈ channels /\ r_seller row_of_bruno ∈ sellers
  /\ r_category row_of_bruno ∈ cats /\ r_region row_of_bruno ∈ ufs
  /\ (r_paid row_of_bruno = "Sim" <-> r_status row_of_bruno = "vendida")
  /\ (r_paid row_of_bruno = "Não" <-> r_status row_of_bruno <> "vendida").
Proof.
  apply (derived_rows_invariant demo_runtime sample_proposals sample_rows row_of_bruno).
  - vm_compute. reflexivity.
  - right. left.
Defined.
